(** * ka_common: the Conan recipe [conanfile.py] as a shallow embedding

    The recipe is a class [KaCommonRecipe(ConanFile)] whose methods are
    called one after the other by the Conan client.  Each method reads and
    mutates the recipe object ([self.settings], [self.options],
    [self.conf], [self.cpp_info], the declared requirements) and some of
    them run external tools (CMake, CTest, file copies).

    The embedding keeps that shape: a recipe object, a log of the external
    effects performed so far, and a state-and-exception monad in which the
    methods are written line by line after the Python source. *)

From Stdlib Require Import Ascii String.
From stdpp Require Import base option list gmap strings.

Open Scope string_scope.
Open Scope list_scope.

(** ** Exceptions

    The two exception classes of the Conan API that can reach the recipe.
    [ConanInvalidConfiguration] is what a validation failure raises;
    everything else (an option that does not exist, an external command
    that exits non-zero) is a plain [ConanException]. *)
Inductive exn : Type :=
| ConanException (msg : string)
| ConanInvalidConfiguration (msg : string).

Inductive result (A : Type) : Type :=
| Ok (a : A)
| Raise (e : exn).
Arguments Ok {A} a.
Arguments Raise {A} e.

(** ** External effects

    What the recipe asks the outside world to do.  The recipe never looks
    inside these tools; it only sees whether they succeed. *)
Inductive Event : Type :=
| CopyFiles (pattern src dst : string)   (* copy(self, pattern, src, dst) *)
| NewCMakeDeps                           (* CMakeDeps(self) *)
| CMakeDepsGenerate                      (* deps.generate() *)
| NewCMakeToolchain                      (* CMakeToolchain(self) *)
| CMakeToolchainGenerate                 (* tc.generate() *)
| NewCMake                               (* CMake(self) *)
| CMakeConfigure                         (* cmake.configure() *)
| CMakeBuild                             (* cmake.build() *)
| CMakeCTest (cli_args : list string)    (* cmake.ctest(cli_args=...) *)
| CMakeInstall.                          (* cmake.install() *)

Global Instance Event_eq_dec : EqDecision Event.
Proof. solve_decision. Defined.

(** ** The recipe object *)

(** [settings = "os", "compiler", "build_type", "arch"]; the compiler
    setting carries its [cppstd] sub-setting, which may be undefined. *)
Record Settings : Type := mkSettings {
  os : string;
  compiler : string;
  compiler_cppstd : option string;
  build_type : string;
  arch : string
}.

(** A declared dependency: the reference string split into name and
    version, and the traits that [requires] and [test_requires] set. *)
Record Requirement : Type := mkRequirement {
  req_name : string;
  req_version : string;
  req_visible : bool;   (* propagates to consumers *)
  req_test : bool       (* declared with test_requires *)
}.

Global Instance Requirement_eq_dec : EqDecision Requirement.
Proof. solve_decision. Defined.

(** [self.cpp_info]: what consumers of the package get to see. *)
Record CppInfo : Type := mkCppInfo {
  builddirs : list string;
  properties : gmap string string;
  libs : list string
}.

(** The directories the client assigns to the recipe. *)
Record Folders : Type := mkFolders {
  recipe_folder : string;
  export_sources_folder : string;
  source_folder : string;
  package_folder : string
}.

Record ConanFile : Type := mkConanFile {
  settings : Settings;
  options : gmap string bool;
  conf : gmap string bool;
  requires_ : list Requirement;
  cpp_info : CppInfo;
  folders : Folders
}.

(** The state the methods run in: the recipe object, the log of the
    external effects performed so far (oldest first), and the outside
    world [tools]: given what has been done so far and the step that is
    requested, whether that step exits with status zero. *)
Record State : Type := mkState {
  self : ConanFile;
  log : list Event;
  tools : list Event → Event → bool
}.

(** ** The monad of recipe methods

    A method takes the state and returns the state it leaves behind
    together with either its return value or the exception it raised.  As
    in Python, whatever was mutated before a raise stays mutated. *)
Definition M (A : Type) : Type := State → State * result A.

Definition ret {A} (a : A) : M A := λ st, (st, Ok a).

Definition raise {A} (e : exn) : M A := λ st, (st, Raise e).

Definition bind {A B} (k : A → M B) (m : M A) : M B :=
  λ st, match m st with
        | (st', Ok a) => k a st'
        | (st', Raise e) => (st', Raise e)
        end.

(** stdpp's monad notations: [x ← m; k] and [m ;; k]. *)
Global Instance M_ret : MRet M := @ret.
Global Instance M_bind : MBind M := @bind.

(** [try: m except ConanException: pass].  Both exception classes derive
    from [ConanException], so both are swallowed. *)
Definition try_pass (m : M unit) : M unit :=
  λ st, match m st with
        | (st', Ok _) => (st', Ok ())
        | (st', Raise _) => (st', Ok ())
        end.

Definition exec {A} (m : M A) (st : State) : State := fst (m st).
Definition outcome {A} (m : M A) (st : State) : result A := snd (m st).

Definition get_self : M ConanFile := λ st, (st, Ok (self st)).

Definition modify_self (f : ConanFile → ConanFile) : M unit :=
  λ st, (mkState (f (self st)) (log st) (tools st), Ok ()).

Definition set_options (o : gmap string bool) (c : ConanFile) : ConanFile :=
  mkConanFile (settings c) o (conf c) (requires_ c) (cpp_info c) (folders c).

Definition set_requires (r : list Requirement) (c : ConanFile) : ConanFile :=
  mkConanFile (settings c) (options c) (conf c) r (cpp_info c) (folders c).

Definition set_cpp_info (i : CppInfo) (c : ConanFile) : ConanFile :=
  mkConanFile (settings c) (options c) (conf c) (requires_ c) i (folders c).

(** ** The Conan API the recipe calls

    The recipe imports these operations from the Conan client library;
    their code is not part of the repository.  Each is written here as far
    as the recipe uses it. *)

Definition option_not_exist (name : string) : exn :=
  ConanException ("option '" +:+ name +:+ "' doesn't exist").

(** Modelled from the spec: [self.options.<name>] belongs to the Conan
    library.  The option set is a mapping from option name to current
    value; reading an option that is not (or no longer) in it raises. *)
Definition options_getattr (name : string) : M bool :=
  c ← get_self;
  match options c !! name with
  | Some v => mret v
  | None => raise (option_not_exist name)
  end.

(** Modelled from the spec: [del self.options.<name>] belongs to the Conan
    library.  It removes the option from the mapping and raises when there
    is no such option. *)
Definition options_delattr (name : string) : M unit :=
  c ← get_self;
  match options c !! name with
  | Some _ => modify_self (set_options (delete name (options c)))
  | None => raise (option_not_exist name)
  end.

(** Modelled from the spec: [self.options.rm_safe(name)] belongs to the
    Conan library.  It is [del] inside a [try] that swallows the exception
    of a missing option ("no error is raised for removing an
    already-absent option"). *)
Definition rm_safe (name : string) : M unit :=
  try_pass (options_delattr name).

(** Modelled from the spec: [self.conf.get(name, default=dflt)] belongs to
    the Conan library.  It returns the value of a boolean configuration
    flag, or [dflt] when the flag is unset. *)
Definition conf_get (name : string) (dflt : bool) : M bool :=
  c ← get_self;
  mret (default dflt (conf c !! name)).

Definition tool_failed : exn := ConanException "external command failed".

(** Modelled from the spec: the external tools (CMake, CTest, the file
    copier) and the Conan helper objects that drive them are not part of
    the repository.  A step is logged when it is started; it "either
    succeeds or raises a fatal process-exit error", as the outside world
    decides.  Creating a helper object is a step as well: [CMake(self)],
    for one, reads the files the generators wrote and fails without
    them. *)
Definition run_tool (ev : Event) : M unit :=
  λ st, let st' := mkState (self st) (log st ++ [ev]) (tools st) in
        if tools st (log st) ev then (st', Ok ()) else (st', Raise tool_failed).

(** [copy(self, pattern, src, dst)] *)
Definition copy (pattern src dst : string) : M unit :=
  run_tool (CopyFiles pattern src dst).

(** Splitting a reference [name/version] at its first slash. *)
Fixpoint split_ref (r : string) : string * string :=
  match r with
  | EmptyString => (EmptyString, EmptyString)
  | String c rest =>
      if Ascii.eqb c "/"%char then (EmptyString, rest)
      else let '(n, v) := split_ref rest in (String c n, v)
  end.

(** Modelled from the spec: [self.requires] and [self.test_requires]
    belong to the Conan library.  Each appends one entry (name, exact
    version, role) to the declared requirements; a runtime requirement
    propagates to consumers, a test requirement does not. *)
Definition add_requirement (r : string) (visible test : bool) : M unit :=
  let '(n, v) := split_ref r in
  modify_self (λ c, set_requires (requires_ c ++ [mkRequirement n v visible test]) c).

Definition requires (r : string) : M unit := add_requirement r true false.

Definition test_requires (r : string) : M unit := add_requirement r false true.

Fixpoint remove_gnu (s : string) : string :=
  match s with
  | String "g" (String "n" (String "u" rest)) => remove_gnu rest
  | String c rest => String c (remove_gnu rest)
  | EmptyString => EmptyString
  end.

Definition add_millennium (v : string) : string :=
  if String.eqb v "98" then "19" +:+ v else "20" +:+ v.

Definition cppstd_undefined : exn :=
  ConanInvalidConfiguration
    "The compiler.cppstd is not defined for this configuration".

Definition cppstd_too_low (current cppstd : string) : exn :=
  ConanInvalidConfiguration
    ("Current cppstd (" +:+ current +:+
     ") is lower than the required C++ standard (" +:+ cppstd +:+ ").").

(** Modelled from the spec: [check_min_cppstd(self, cppstd)] belongs to
    the Conan library.  It checks that the build environment "supports at
    least a specified language-standard version" and raises the
    validation error otherwise.  The library reads
    [settings.compiler.cppstd], drops a [gnu] prefix, turns the two digits
    into a year ([98] is 1998, the others 20xx) and compares the years as
    strings; an undefined [cppstd] is rejected as well. *)
Definition check_min_cppstd (cppstd : string) : M unit :=
  c ← get_self;
  match compiler_cppstd (settings c) with
  | None => raise cppstd_undefined
  | Some current =>
      let lhs := add_millennium (remove_gnu current) in
      let rhs := add_millennium cppstd in
      if String.ltb lhs rhs then raise (cppstd_too_low current cppstd)
      else mret ()
  end.

(** ** The recipe: [class KaCommonRecipe(ConanFile)] *)

Definition name : string := "ka_common".
Definition version : string := "0.1.0".
Definition package_type : string := "library".
Definition license : string := "MIT".
Definition author : string := "kononovarseniy@gmail.com".
Definition url : string := "https://github.com/kononovarseniy/common".
Definition description : string :=
  "Functions and types that are frequently used in my C++ projects".

(** [options = {"shared": [True, False], "fPIC": [True, False]}] *)
Definition options_domain : gmap string (list bool) :=
  {[ "shared" := [true; false]; "fPIC" := [true; false] ]}.

(** [default_options = {"shared": False, "fPIC": True}] *)
Definition default_options : gmap string bool :=
  {[ "shared" := false; "fPIC" := true ]}.

Definition config_options : M unit :=
  c ← get_self;
  if String.eqb (os (settings c)) "Windows" then rm_safe "fPIC" else mret ().

Definition configure : M unit :=
  shared ← options_getattr "shared";
  if (shared : bool) then rm_safe "fPIC" else mret ().

Definition requirements : M unit := requires "fmt/9.1.0".

Definition build_requirements : M unit := test_requires "gtest/1.17.0".

Definition export_sources : M unit :=
  c ← get_self;
  let src := recipe_folder (folders c) in
  let dst := export_sources_folder (folders c) in
  copy "CMakeLists.txt" src dst;;
  copy "cmake/*" src dst;;
  copy "include/*" src dst;;
  copy "src/*" src dst.

Definition validate : M unit := check_min_cppstd "20".

(** [cmake_layout(self)] belongs to the Conan library; it only assigns
    directory names under [self.folders] and [self.cpp], nothing the other
    methods of the recipe read. *)
Definition layout : M unit := mret ().

Definition generate : M unit :=
  run_tool NewCMakeDeps;;
  run_tool CMakeDepsGenerate;;
  run_tool NewCMakeToolchain;;
  run_tool CMakeToolchainGenerate.

Definition build : M unit :=
  run_tool NewCMake;;
  run_tool CMakeConfigure;;
  run_tool CMakeBuild;;
  skip ← conf_get "tools.build:skip_test" false;
  if negb (skip : bool) then run_tool (CMakeCTest ["--output-on-failure"]) else mret ().

Definition package : M unit :=
  run_tool NewCMake;;
  run_tool CMakeInstall;;
  c ← get_self;
  copy "cmake/*" (source_folder (folders c)) (package_folder (folders c)).

Definition package_info : M unit :=
  modify_self (λ c, set_cpp_info
    (mkCppInfo ["cmake"] (properties (cpp_info c)) (libs (cpp_info c))) c);;
  modify_self (λ c, set_cpp_info
    (mkCppInfo (builddirs (cpp_info c))
       (<["cmake_target_name" := "ka::common"]> (properties (cpp_info c)))
       (libs (cpp_info c))) c);;
  modify_self (λ c, set_cpp_info
    (mkCppInfo (builddirs (cpp_info c)) (properties (cpp_info c))
       ["ka_common"]) c).

(** ** The client that drives the recipe

    The recipe calls none of its own methods; the Conan client does. *)

(** Modelled from the spec: the client creates the recipe object; it is
    not part of the repository.  The object starts with the declared
    default options, no requirement and an empty [cpp_info]. *)
Definition new_recipe (s : Settings) (cf : gmap string bool) (f : Folders)
  : ConanFile :=
  mkConanFile s default_options cf [] (mkCppInfo [] ∅ []) f.

Definition start (s : Settings) (cf : gmap string bool) (f : Folders)
    (tl : list Event → Event → bool) : State :=
  mkState (new_recipe s cf f) [] tl.

(** Modelled from the spec: the client's assignment of "any option value
    supplied by the driving process" is not part of the repository.
    Supplied values are assigned to the options the recipe still has; a
    value for an option that [config_options] removed creates no option. *)
Definition assign_options (supplied o : gmap string bool) : gmap string bool :=
  map_imap (λ k v, Some (default v (supplied !! k))) o.

Definition apply_downstream (supplied : gmap string bool) : M unit :=
  modify_self (λ c, set_options (assign_options supplied (options c)) c).

(** The two narrowing steps of the recipe on their own. *)
Definition narrowing : M unit :=
  config_options;;
  configure.

(** Modelled from the spec: option resolution as the client runs it (not
    part of the repository): [config_options] prunes the declared options,
    the supplied values are assigned, then [configure] is called. *)
Definition run_configure_method (supplied : gmap string bool) : M unit :=
  config_options;;
  apply_downstream supplied;;
  configure.

(** Modelled from the spec: the life cycle (not part of the repository):
    "a driving process invokes each stage in a fixed order", and the first
    exception halts it. *)
Definition create (supplied : gmap string bool) : M unit :=
  export_sources;;
  run_configure_method supplied;;
  requirements;;
  build_requirements;;
  layout;;
  validate;;
  generate;;
  build;;
  package;;
  package_info.

(** The finalized option set of a run that starts from the defaults. *)
Definition resolved_options (s : Settings) (cf : gmap string bool)
    (f : Folders) (tl : list Event → Event → bool)
    (supplied : gmap string bool) : gmap string bool :=
  options (self (exec (run_configure_method supplied) (start s cf f tl))).

(** What a method adds to the log. *)
Definition emitted {A} (m : M A) (st : State) : list Event :=
  drop (length (log st)) (log (exec m st)).

(** The option values a run starts from: the supplied ones laid over the
    declared defaults. *)
Definition input_options (supplied : gmap string bool) : gmap string bool :=
  assign_options supplied default_options.

(** Sample inputs. *)
Definition linux : Settings :=
  mkSettings "Linux" "gcc" (Some "gnu17") "Release" "x86_64".
Definition linux20 : Settings :=
  mkSettings "Linux" "gcc" (Some "20") "Release" "x86_64".
Definition windows : Settings :=
  mkSettings "Windows" "msvc" (Some "20") "Debug" "x86_64".
Definition windows_store : Settings :=
  mkSettings "WindowsStore" "msvc" (Some "20") "Release" "x86_64".
Definition fold0 : Folders := mkFolders "recipe" "export" "source" "package".

(** The operating systems of the Windows family among the values of
    Conan's [os] setting.  The recipe itself compares [settings.os] with
    the one string ["Windows"]. *)
Definition windows_family_os : list string :=
  ["Windows"; "WindowsStore"; "WindowsCE"].

Definition windows_family (s : Settings) : bool :=
  bool_decide (os s ∈ windows_family_os).
Definition all_ok : list Event → Event → bool := λ _ _, true.

(** Tools of which the install step fails unless a build was run before. *)
Definition needs_build : list Event → Event → bool :=
  λ done ev, match ev with
             | CMakeInstall => bool_decide (CMakeBuild ∈ done)
             | _ => true
             end.

(** The state with its option mapping replaced. *)
Definition with_options (o : gmap string bool) (st : State) : State :=
  mkState (set_options o (self st)) (log st) (tools st).

(** What the two narrowing steps do to the option mapping alone: the
    branches of [config_options] and [configure] with [rm_safe] read as
    deletion of the key. *)
Definition config_options_on (s : Settings) (o : gmap string bool)
  : gmap string bool :=
  if String.eqb (os s) "Windows" then delete "fPIC" o else o.

Definition configure_on (o : gmap string bool) : gmap string bool :=
  match o !! "shared" with
  | Some true => delete "fPIC" o
  | _ => o
  end.

Definition configure_outcome (o : gmap string bool) : result unit :=
  match o !! "shared" with
  | Some _ => Ok ()
  | None => Raise (option_not_exist "shared")
  end.

(** ** Reading logs, requirement lists and [cpp_info] *)

Fixpoint count_events (p : Event → bool) (l : list Event) : nat :=
  match l with
  | [] => 0
  | e :: l' => (if p e then 1 else 0) + count_events p l'
  end.

Definition is_test_run (e : Event) : bool :=
  match e with CMakeCTest _ => true | _ => false end.

Definition is_copy (e : Event) : bool :=
  match e with CopyFiles _ _ _ => true | _ => false end.

(** The build step has been started at some point of the log. *)
Definition built (l : list Event) : bool := bool_decide (CMakeBuild ∈ l).

(** [needle in hay] on strings. *)
Fixpoint contains (needle hay : string) : bool :=
  String.prefix needle hay ||
  match hay with
  | EmptyString => false
  | String _ rest => contains needle rest
  end.

(** Every string a consumer can read in [cpp_info]. *)
Definition cpp_info_strings (i : CppInfo) : list string :=
  builddirs i ++ libs i ++
  flat_map (λ kv : string * string, [kv.1; kv.2]) (map_to_list (properties i)).

Definition mentions (needle : string) (i : CppInfo) : bool :=
  existsb (contains needle) (cpp_info_strings i).

(** The values of [compiler.cppstd] that Conan's settings know, and the
    year of the standard each one names. *)
Definition cppstd_values : list string :=
  ["98"; "gnu98"; "11"; "gnu11"; "14"; "gnu14"; "17"; "gnu17";
   "20"; "gnu20"; "23"; "gnu23"; "26"; "gnu26"].

Fixpoint digits_value (s : string) (acc : N) : N :=
  match s with
  | EmptyString => acc
  | String c rest => digits_value rest (10 * acc + (N_of_ascii c - 48))%N
  end.

Definition cppstd_year (v : string) : N :=
  let n := digits_value (remove_gnu v) 0 in
  if (n =? 98)%N then (1900 + n)%N else (2000 + n)%N.

(** ** Sequences of external steps

    The methods that talk to the outside world are straight-line
    sequences of steps; these definitions name the sequences and what a
    sequence does when the steps are run one after the other until the
    first failure. *)

Fixpoint run_tools (steps : list Event) : M unit :=
  match steps with
  | [] => mret ()
  | e :: rest => run_tool e;; run_tools rest
  end.

(** The steps that get started, given what has been done before. *)
Fixpoint started (tl : list Event → Event → bool) (past steps : list Event)
  : list Event :=
  match steps with
  | [] => []
  | e :: rest => e :: (if tl past e then started tl (past ++ [e]) rest else [])
  end.

(** Whether every step of the sequence succeeds. *)
Fixpoint all_succeed (tl : list Event → Event → bool) (past steps : list Event)
  : bool :=
  match steps with
  | [] => true
  | e :: rest => tl past e && all_succeed tl (past ++ [e]) rest
  end.

(** The steps of [export_sources], [generate], [build] and [package], in
    the order of the source. *)
Definition export_copies (f : Folders) : list Event :=
  [CopyFiles "CMakeLists.txt" (recipe_folder f) (export_sources_folder f);
   CopyFiles "cmake/*" (recipe_folder f) (export_sources_folder f);
   CopyFiles "include/*" (recipe_folder f) (export_sources_folder f);
   CopyFiles "src/*" (recipe_folder f) (export_sources_folder f)].

Definition generate_steps : list Event :=
  [NewCMakeDeps; CMakeDepsGenerate; NewCMakeToolchain; CMakeToolchainGenerate].

Definition build_steps (skip : bool) : list Event :=
  [NewCMake; CMakeConfigure; CMakeBuild] ++
  (if skip then [] else [CMakeCTest ["--output-on-failure"]]).

Definition package_steps (f : Folders) : list Event :=
  [NewCMake; CMakeInstall;
   CopyFiles "cmake/*" (source_folder f) (package_folder f)].

(** The value of the skip-tests flag as [build] reads it. *)
Definition skip_test (c : ConanFile) : bool :=
  default false (conf c !! "tools.build:skip_test").

(** The methods the client calls once the options are resolved. *)
Definition later_methods : list (M unit) :=
  [requirements; build_requirements; export_sources; validate; layout;
   generate; build; package; package_info].

(** A method that leaves settings, options and configuration alone. *)
Definition keeps_inputs (m : M unit) : Prop :=
  ∀ st, settings (self (exec m st)) = settings (self st) ∧
        options (self (exec m st)) = options (self st) ∧
        conf (self (exec m st)) = conf (self st).

(** A method that runs the given steps in order and stops at the first
    one that fails: it starts a prefix of the steps and leaves the recipe
    object alone; it returns normally only after all of them succeeded,
    and when it raises, the error is the failure of the last step it
    started, all the steps before that one having succeeded. *)
Definition stops_at_first_failure (m : M unit) (steps : list Event)
    (st : State) : Prop :=
  emitted m st `prefix_of` steps ∧
  self (exec m st) = self st ∧
  match outcome m st with
  | Ok _ => emitted m st = steps ∧ all_succeed (tools st) (log st) steps = true
  | Raise e =>
      e = tool_failed ∧
      ∃ l c, emitted m st = l ++ [c] ∧
             all_succeed (tools st) (log st) l = true ∧
             tools st (log st ++ l) c = false
  end.

(** * Properties *)

(** ** The monad *)

Lemma bind_ok {A B} (m : M A) (k : A → M B) st st' a :
  m st = (st', Ok a) → (m ≫= k) st = k a st'.
Proof. intros H. unfold mbind, M_bind, bind. by rewrite H. Qed.

Lemma bind_unfold {A B} (m : M A) (k : A → M B) st :
  (m ≫= k) st = match m st with
                | (st', Ok a) => k a st'
                | (st', Raise e) => (st', Raise e)
                end.
Proof. reflexivity. Qed.

Lemma bind_exec {A B} (m : M A) (k : A → M B) st a :
  outcome m st = Ok a → (m ≫= k) st = k a (exec m st).
Proof.
  unfold outcome, exec. destruct (m st) as [st' r] eqn:E. simpl.
  intros ->. by apply bind_ok.
Qed.

(** ** Options *)

Lemma with_options_id st : with_options (options (self st)) st = st.
Proof. by destruct st as [[] ? ?]. Qed.

Lemma with_options_twice o o' st :
  with_options o (with_options o' st) = with_options o st.
Proof. reflexivity. Qed.

Lemma rm_safe_eq name st :
  rm_safe name st = (with_options (delete name (options (self st))) st, Ok ()).
Proof.
  unfold rm_safe, try_pass, options_delattr, mbind, M_bind, bind, get_self.
  destruct (options (self st) !! name) eqn:E; simpl.
  - reflexivity.
  - rewrite delete_id by done. by rewrite with_options_id.
Qed.

Lemma config_options_eq st :
  config_options st =
    (if String.eqb (os (settings (self st))) "Windows"
     then with_options (delete "fPIC" (options (self st))) st else st, Ok ()).
Proof.
  unfold config_options, mbind, M_bind, bind, get_self.
  destruct (String.eqb _ _); [apply rm_safe_eq | reflexivity].
Qed.

Lemma configure_eq st :
  configure st =
    match options (self st) !! "shared" with
    | Some true => (with_options (delete "fPIC" (options (self st))) st, Ok ())
    | Some false => (st, Ok ())
    | None => (st, Raise (option_not_exist "shared"))
    end.
Proof.
  unfold configure, options_getattr, mbind, M_bind, bind, get_self.
  destruct (options (self st) !! "shared") as [[]|]; simpl;
    [apply rm_safe_eq | reflexivity | reflexivity].
Qed.

Lemma apply_downstream_eq supplied st :
  apply_downstream supplied st =
    (with_options (assign_options supplied (options (self st))) st, Ok ()).
Proof. reflexivity. Qed.

Lemma assign_options_lookup supplied (o : gmap string bool) k :
  assign_options supplied o !! k = (λ v, default v (supplied !! k)) <$> o !! k.
Proof.
  unfold assign_options. rewrite map_lookup_imap.
  by destruct (o !! k).
Qed.

Lemma narrowing_eq st : narrowing st = configure (exec config_options st).
Proof.
  unfold narrowing. apply (bind_exec config_options (λ _, configure) st ()).
  unfold outcome. by rewrite config_options_eq.
Qed.

Lemma run_configure_method_eq supplied st :
  run_configure_method supplied st =
    configure (with_options
                 (assign_options supplied (options (self (exec config_options st))))
                 (exec config_options st)).
Proof.
  unfold run_configure_method.
  rewrite (bind_exec config_options _ st ())
    by (unfold outcome; by rewrite config_options_eq).
  by rewrite (bind_ok _ _ _ _ _ (apply_downstream_eq _ _)).
Qed.

Lemma default_options_shared : default_options !! "shared" = Some false.
Proof. reflexivity. Qed.

Lemma default_options_fPIC : default_options !! "fPIC" = Some true.
Proof. reflexivity. Qed.

(** Reading the options of the state a method leaves behind. *)
Lemma options_with_options o st : options (self (with_options o st)) = o.
Proof. reflexivity. Qed.

Lemma configure_fPIC_of_shared st :
  options (self st) !! "shared" = Some true →
  configure st = (with_options (delete "fPIC" (options (self st))) st, Ok ()).
Proof. intros H. by rewrite configure_eq, H. Qed.

(** [configure] never adds an option. *)
Lemma configure_keeps_absent st k :
  options (self st) !! k = None → options (self (exec configure st)) !! k = None.
Proof.
  intros H. unfold exec. rewrite configure_eq.
  destruct (options (self st) !! "shared") as [[]|]; simpl; try done.
  destruct (decide (k = "fPIC")) as [->|?].
  - apply lookup_delete_eq.
  - by rewrite lookup_delete_ne.
Qed.

(** The finalized options of a run of the client, as a computation on
    mappings. *)
Lemma exec_config_options_start s cf f tl :
  exec config_options (start s cf f tl) =
    with_options (if String.eqb (os s) "Windows"
                  then delete "fPIC" default_options else default_options)
                 (start s cf f tl).
Proof.
  unfold exec. rewrite config_options_eq.
  change (os (settings (self (start s cf f tl)))) with (os s).
  change (options (self (start s cf f tl))) with default_options.
  destruct (String.eqb (os s) "Windows"); [reflexivity|].
  symmetry. apply with_options_id.
Qed.

Lemma run_configure_method_start s cf f tl supplied :
  run_configure_method supplied (start s cf f tl) =
    configure (with_options
                 (assign_options supplied
                    (if String.eqb (os s) "Windows"
                     then delete "fPIC" default_options else default_options))
                 (start s cf f tl)).
Proof.
  rewrite run_configure_method_eq, exec_config_options_start.
  by rewrite options_with_options, with_options_twice.
Qed.

Lemma pruned_shared (w : bool) supplied :
  assign_options supplied
    (if w then delete "fPIC" default_options else default_options) !! "shared"
  = Some (default false (supplied !! "shared")).
Proof.
  rewrite assign_options_lookup.
  destruct w.
  - rewrite lookup_delete_ne by discriminate. by rewrite default_options_shared.
  - by rewrite default_options_shared.
Qed.

Lemma pruned_fPIC (w : bool) supplied :
  assign_options supplied
    (if w then delete "fPIC" default_options else default_options) !! "fPIC"
  = if w then None else Some (default true (supplied !! "fPIC")).
Proof.
  rewrite assign_options_lookup.
  destruct w.
  - by rewrite lookup_delete_eq.
  - by rewrite default_options_fPIC.
Qed.

Lemma run_configure_method_ok s cf f tl supplied :
  outcome (run_configure_method supplied) (start s cf f tl) = Ok ().
Proof.
  unfold outcome. rewrite run_configure_method_start, configure_eq.
  rewrite options_with_options, pruned_shared.
  by destruct (default false (supplied !! "shared")).
Qed.

Lemma resolved_options_eq s cf f tl supplied :
  resolved_options s cf f tl supplied =
    let o := assign_options supplied
               (if String.eqb (os s) "Windows"
                then delete "fPIC" default_options else default_options) in
    if default false (supplied !! "shared") then delete "fPIC" o else o.
Proof.
  unfold resolved_options, exec.
  rewrite run_configure_method_start, configure_eq.
  rewrite options_with_options, pruned_shared.
  by destruct (default false (supplied !! "shared")).
Qed.

Lemma resolved_shared s cf f tl supplied :
  resolved_options s cf f tl supplied !! "shared"
  = Some (default false (supplied !! "shared")).
Proof.
  rewrite resolved_options_eq. cbv zeta.
  destruct (default false (supplied !! "shared")) eqn:E.
  - rewrite lookup_delete_ne by discriminate. by rewrite pruned_shared, E.
  - by rewrite pruned_shared, E.
Qed.

Lemma resolved_fPIC s cf f tl supplied :
  resolved_options s cf f tl supplied !! "fPIC"
  = if String.eqb (os s) "Windows" || default false (supplied !! "shared")
    then None else Some (default true (supplied !! "fPIC")).
Proof.
  rewrite resolved_options_eq. cbv zeta.
  destruct (default false (supplied !! "shared")) eqn:E.
  - rewrite lookup_delete_eq. by rewrite orb_true_r.
  - rewrite pruned_fPIC, orb_false_r. done.
Qed.

(** C1, as stated, fails: [WindowsStore] belongs to the Windows family,
    but [config_options] compares [settings.os] with ["Windows"] only, so
    on [WindowsStore] a static build keeps [fPIC], both in a run of the
    client and after the two narrowing steps applied to the defaults. *)
Lemma windows_store_keeps_fPIC :
  windows_family windows_store = true ∧
  outcome (run_configure_method ∅) (start windows_store ∅ fold0 all_ok) = Ok () ∧
  resolved_options windows_store ∅ fold0 all_ok ∅ !! "fPIC" = Some true ∧
  resolved_options windows_store ∅ fold0 all_ok {[ "shared" := false; "fPIC" := true ]}
    !! "fPIC" = Some true ∧
  options (self (exec narrowing (start windows_store ∅ fold0 all_ok))) !! "fPIC"
    = Some true.
Proof. repeat split; vm_compute; reflexivity. Qed.

(** C1, amended.  When [settings.os] is exactly ["Windows"], the string
    the recipe tests for, the finalized option set has no [fPIC] key at
    all, whatever values were supplied for [shared] and [fPIC]: both for a
    run of the client from the declared defaults, which also raises
    nothing, and for the two narrowing steps applied to an arbitrary
    option mapping. *)
Theorem windows_has_no_fPIC (s : Settings) (Hos : os s = "Windows") :
  (∀ cf f tl supplied,
      outcome (run_configure_method supplied) (start s cf f tl) = Ok () ∧
      resolved_options s cf f tl supplied !! "fPIC" = None ∧
      "fPIC" ∉ dom (resolved_options s cf f tl supplied)) ∧
  (∀ o cf rq ci f lg tl,
      options (self (exec narrowing
                       (mkState (mkConanFile s o cf rq ci f) lg tl))) !! "fPIC"
        = None).
Proof.
  split.
  - intros cf f tl supplied.
    assert (Hpic : resolved_options s cf f tl supplied !! "fPIC" = None).
    { rewrite resolved_fPIC, Hos. reflexivity. }
    split; [apply run_configure_method_ok|].
    split; [exact Hpic|].
    apply not_elem_of_dom, Hpic.
  - intros o cf rq ci f lg tl.
    unfold exec at 1. rewrite narrowing_eq.
    apply configure_keeps_absent.
    unfold exec. rewrite config_options_eq.
    cbn [self settings os fst]. rewrite Hos. cbn [String.eqb fst].
    apply lookup_delete_eq.
Qed.

(** A Windows run in which both options are supplied. *)
Lemma windows_has_no_fPIC_witness :
  os windows = "Windows" ∧
  resolved_options windows ∅ fold0 all_ok {[ "shared" := false; "fPIC" := true ]}
    !! "fPIC" = None.
Proof.
  split; [reflexivity|].
  exact (proj1 (proj2 (proj1 (windows_has_no_fPIC windows eq_refl) ∅ fold0 all_ok
                         {[ "shared" := false; "fPIC" := true ]}))).
Defined.

Lemma default_options_other k :
  k ≠ "shared" → k ≠ "fPIC" → default_options !! k = None.
Proof.
  intros H1 H2. unfold default_options.
  rewrite lookup_insert_ne by done. by rewrite lookup_singleton_ne.
Qed.

(** Every declared default lies in the declared domain of its option. *)
Lemma default_options_in_domain k v :
  default_options !! k = Some v →
  ∃ d, options_domain !! k = Some d ∧ v ∈ d.
Proof.
  intros H.
  assert (Hv : v ∈ [true; false]) by (destruct v; repeat constructor).
  destruct (decide (k = "shared")) as [->|Hs]; [by exists [true; false]|].
  destruct (decide (k = "fPIC")) as [->|Hp]; [by exists [true; false]|].
  by rewrite default_options_other in H.
Qed.

Lemma resolved_other s cf f tl supplied k :
  k ≠ "shared" → k ≠ "fPIC" → resolved_options s cf f tl supplied !! k = None.
Proof.
  intros H1 H2. rewrite resolved_options_eq. cbv zeta.
  assert (H : ∀ w : bool,
             assign_options supplied
               (if w then delete "fPIC" default_options else default_options) !! k
             = None).
  { intros w. rewrite assign_options_lookup. destruct w.
    - rewrite lookup_delete_ne by done. by rewrite default_options_other.
    - by rewrite default_options_other. }
  destruct (default false (supplied !! "shared")).
  - rewrite lookup_delete_ne by done. apply H.
  - apply H.
Qed.

Lemma input_options_shared supplied :
  input_options supplied !! "shared" = Some (default false (supplied !! "shared")).
Proof. exact (pruned_shared false supplied). Qed.

Lemma input_options_fPIC supplied :
  input_options supplied !! "fPIC" = Some (default true (supplied !! "fPIC")).
Proof. exact (pruned_fPIC false supplied). Qed.

Lemma not_windows s : os s ≠ "Windows" → String.eqb (os s) "Windows" = false.
Proof. apply String.eqb_neq. Qed.

(** C2.  When [shared] is true in the input and [settings.os] is not
    ["Windows"], the run raises nothing and the finalized option set has no
    [fPIC] key.  [config_options] still leaves [fPIC] in place on such a
    system; it is [configure] that removes it.  The same holds for the two
    narrowing steps applied to any option mapping in which [shared] is
    true. *)
Theorem shared_has_no_fPIC (s : Settings) (cf : gmap string bool) (f : Folders)
    (tl : list Event → Event → bool) (supplied : gmap string bool)
    (Hos : os s ≠ "Windows")
    (Hsh : input_options supplied !! "shared" = Some true) :
  outcome (run_configure_method supplied) (start s cf f tl) = Ok () ∧
  options (self (exec config_options (start s cf f tl))) !! "fPIC" = Some true ∧
  resolved_options s cf f tl supplied !! "shared" = Some true ∧
  resolved_options s cf f tl supplied !! "fPIC" = None ∧
  ("fPIC" ∉ dom (resolved_options s cf f tl supplied)) ∧
  (∀ o rq ci lg,
      options (self (exec narrowing
        (mkState (mkConanFile s (<["shared" := true]> o) cf rq ci f) lg tl)))
        !! "fPIC" = None).
Proof.
  rewrite input_options_shared in Hsh.
  assert (Hpic : resolved_options s cf f tl supplied !! "fPIC" = None).
  { rewrite resolved_fPIC. injection Hsh as ->. by rewrite orb_true_r. }
  split; [apply run_configure_method_ok|].
  split.
  { rewrite exec_config_options_start, options_with_options.
    rewrite (not_windows s Hos). apply default_options_fPIC. }
  split; [by rewrite resolved_shared|].
  split; [exact Hpic|].
  split; [apply not_elem_of_dom, Hpic|].
  intros o rq ci lg.
  unfold exec. rewrite narrowing_eq.
  unfold exec. rewrite config_options_eq.
  cbn [self settings fst options]. rewrite (not_windows s Hos).
  rewrite configure_fPIC_of_shared.
  - cbn [fst]. rewrite options_with_options. apply lookup_delete_eq.
  - cbn [self options]. apply lookup_insert_eq.
Qed.

Lemma shared_has_no_fPIC_witness :
  os linux ≠ "Windows" ∧
  input_options {[ "shared" := true ]} !! "shared" = Some true ∧
  resolved_options linux ∅ fold0 all_ok {[ "shared" := true ]} !! "fPIC" = None.
Proof.
  assert (Hos : os linux ≠ "Windows") by discriminate.
  assert (Hsh : input_options {[ "shared" := true ]} !! "shared" = Some true)
    by reflexivity.
  split; [exact Hos|]. split; [exact Hsh|].
  exact (proj1 (proj2 (proj2 (proj2
    (shared_has_no_fPIC linux ∅ fold0 all_ok {[ "shared" := true ]} Hos Hsh))))).
Defined.

(** C3.  When [shared] is false in the input (supplied as false, or not
    supplied and so left at its default) and [settings.os] is not
    ["Windows"], the run raises nothing and the finalized option set
    contains [fPIC]; its value is the supplied one, and it is true when no
    value was supplied for it. *)
Theorem static_keeps_fPIC (s : Settings) (cf : gmap string bool) (f : Folders)
    (tl : list Event → Event → bool) (supplied : gmap string bool)
    (Hos : os s ≠ "Windows")
    (Hsh : input_options supplied !! "shared" = Some false) :
  outcome (run_configure_method supplied) (start s cf f tl) = Ok () ∧
  ("fPIC" ∈ dom (resolved_options s cf f tl supplied)) ∧
  resolved_options s cf f tl supplied !! "fPIC"
    = Some (default true (supplied !! "fPIC")) ∧
  resolved_options s cf f tl (delete "fPIC" supplied) !! "fPIC" = Some true ∧
  resolved_options s cf f tl supplied = input_options supplied.
Proof.
  rewrite input_options_shared in Hsh. injection Hsh as Hsh.
  assert (Hpic : resolved_options s cf f tl supplied !! "fPIC"
                 = Some (default true (supplied !! "fPIC"))).
  { by rewrite resolved_fPIC, (not_windows s Hos), Hsh. }
  split; [apply run_configure_method_ok|].
  split; [apply elem_of_dom; rewrite Hpic; eauto|].
  split; [exact Hpic|].
  split.
  - rewrite resolved_fPIC, (not_windows s Hos).
    rewrite lookup_delete_ne by discriminate. rewrite Hsh.
    by rewrite lookup_delete_eq.
  - rewrite resolved_options_eq. cbv zeta.
    by rewrite (not_windows s Hos), Hsh.
Qed.

Lemma static_keeps_fPIC_witness :
  os linux ≠ "Windows" ∧
  input_options ∅ !! "shared" = Some false ∧
  resolved_options linux ∅ fold0 all_ok ∅ !! "fPIC" = Some true.
Proof.
  assert (Hos : os linux ≠ "Windows") by discriminate.
  assert (Hsh : input_options ∅ !! "shared" = Some false) by reflexivity.
  split; [exact Hos|]. split; [exact Hsh|].
  exact (proj1 (proj2 (proj2
    (static_keeps_fPIC linux ∅ fold0 all_ok ∅ Hos Hsh)))).
Defined.

(** ** Idempotence of the narrowing *)

Lemma config_options_on_eq st :
  config_options st =
    (with_options (config_options_on (settings (self st)) (options (self st))) st,
     Ok ()).
Proof.
  rewrite config_options_eq. unfold config_options_on.
  destruct (String.eqb _ _); [reflexivity|]. by rewrite with_options_id.
Qed.

Lemma configure_on_eq st :
  configure st =
    (with_options (configure_on (options (self st))) st,
     configure_outcome (options (self st))).
Proof.
  rewrite configure_eq. unfold configure_on, configure_outcome.
  destruct (options (self st) !! "shared") as [[]|];
    [reflexivity | by rewrite with_options_id | by rewrite with_options_id].
Qed.

Lemma narrowing_on_eq st :
  narrowing st =
    let o := config_options_on (settings (self st)) (options (self st)) in
    (with_options (configure_on o) st, configure_outcome o).
Proof.
  rewrite narrowing_eq. unfold exec. rewrite config_options_on_eq.
  cbn [fst]. rewrite configure_on_eq. by rewrite options_with_options.
Qed.

Lemma run_configure_method_on_eq supplied st :
  run_configure_method supplied st =
    let o := assign_options supplied
               (config_options_on (settings (self st)) (options (self st))) in
    (with_options (configure_on o) st, configure_outcome o).
Proof.
  rewrite run_configure_method_eq. unfold exec. rewrite config_options_on_eq.
  cbn [fst]. rewrite configure_on_eq. by rewrite options_with_options.
Qed.

Lemma configure_on_shared (o : gmap string bool) :
  configure_on o !! "shared" = o !! "shared".
Proof.
  unfold configure_on. destruct (o !! "shared") as [[]|] eqn:E; try done.
  rewrite lookup_delete_ne by discriminate. done.
Qed.

Lemma configure_on_idemp (o : gmap string bool) :
  configure_on (configure_on o) = configure_on o.
Proof.
  unfold configure_on at 1. rewrite configure_on_shared.
  destruct (o !! "shared") as [[]|] eqn:E; try done.
  unfold configure_on. rewrite E. apply delete_id, lookup_delete_eq.
Qed.

Lemma configure_on_absent (o : gmap string bool) k :
  o !! k = None → configure_on o !! k = None.
Proof.
  intros H. unfold configure_on.
  destruct (o !! "shared") as [[]|]; try done.
  destruct (decide (k = "fPIC")) as [->|?].
  - apply lookup_delete_eq.
  - by rewrite lookup_delete_ne.
Qed.

Lemma config_options_on_fixed s (o : gmap string bool) :
  (String.eqb (os s) "Windows" = true → o !! "fPIC" = None) →
  config_options_on s o = o.
Proof.
  unfold config_options_on. destruct (String.eqb _ _); [|done].
  intros H. apply delete_id, H. reflexivity.
Qed.

Lemma config_options_on_windows s (o : gmap string bool) :
  String.eqb (os s) "Windows" = true → config_options_on s o !! "fPIC" = None.
Proof. unfold config_options_on. intros ->. apply lookup_delete_eq. Qed.

Lemma config_options_on_shared s (o : gmap string bool) :
  config_options_on s o !! "shared" = o !! "shared".
Proof.
  unfold config_options_on. destruct (String.eqb _ _); [|done].
  by rewrite lookup_delete_ne by discriminate.
Qed.

Lemma narrow_on_idemp s (o : gmap string bool) :
  configure_on (config_options_on s (configure_on (config_options_on s o)))
  = configure_on (config_options_on s o).
Proof.
  rewrite (config_options_on_fixed s (configure_on _)).
  - apply configure_on_idemp.
  - intros Hw. by apply configure_on_absent, config_options_on_windows.
Qed.

Lemma assign_options_idemp supplied (o : gmap string bool) :
  assign_options supplied (assign_options supplied o) = assign_options supplied o.
Proof.
  apply map_eq. intros k. rewrite !assign_options_lookup.
  destruct (o !! k); simpl; [|done].
  by destruct (supplied !! k).
Qed.

Lemma assign_options_absent supplied (o : gmap string bool) k :
  o !! k = None → assign_options supplied o !! k = None.
Proof. intros H. by rewrite assign_options_lookup, H. Qed.

Lemma assign_options_delete supplied (o : gmap string bool) k :
  assign_options supplied (delete k o) = delete k (assign_options supplied o).
Proof.
  apply map_eq. intros j. rewrite assign_options_lookup.
  destruct (decide (k = j)) as [->|Hne].
  - by rewrite !lookup_delete_eq.
  - rewrite !lookup_delete_ne by done. by rewrite assign_options_lookup.
Qed.

Lemma assign_options_configure_on supplied (o : gmap string bool) :
  assign_options supplied (configure_on (assign_options supplied o))
  = configure_on (assign_options supplied o).
Proof.
  unfold configure_on.
  destruct (assign_options supplied o !! "shared") as [[]|].
  - by rewrite assign_options_delete, assign_options_idemp.
  - apply assign_options_idemp.
  - apply assign_options_idemp.
Qed.

Lemma resolve_on_idemp s supplied (o : gmap string bool) :
  let r := configure_on (assign_options supplied (config_options_on s o)) in
  assign_options supplied (config_options_on s r) = r.
Proof.
  cbv zeta. rewrite (config_options_on_fixed s (configure_on _)).
  - apply assign_options_configure_on.
  - intros Hw. apply configure_on_absent, assign_options_absent.
    by apply config_options_on_windows.
Qed.

Lemma configure_outcome_ext (o o' : gmap string bool) :
  o !! "shared" = o' !! "shared" → configure_outcome o = configure_outcome o'.
Proof. unfold configure_outcome. by intros ->. Qed.

Lemma narrowing_twice st :
  narrowing (exec narrowing st) = (exec narrowing st, outcome narrowing st).
Proof.
  unfold exec, outcome. rewrite (narrowing_on_eq st). cbv zeta. cbn [fst snd].
  rewrite narrowing_on_eq. cbv zeta.
  change (settings (self (with_options ?o st))) with (settings (self st)).
  rewrite options_with_options, with_options_twice, narrow_on_idemp.
  f_equal. apply configure_outcome_ext.
  by rewrite config_options_on_shared, configure_on_shared.
Qed.

Lemma run_configure_method_twice supplied st :
  run_configure_method supplied (exec (run_configure_method supplied) st)
  = (exec (run_configure_method supplied) st,
     outcome (run_configure_method supplied) st).
Proof.
  unfold exec, outcome. rewrite (run_configure_method_on_eq supplied st).
  cbv zeta. cbn [fst snd].
  rewrite run_configure_method_on_eq. cbv zeta.
  change (settings (self (with_options ?o st))) with (settings (self st)).
  rewrite options_with_options, with_options_twice.
  rewrite (resolve_on_idemp (settings (self st)) supplied (options (self st))).
  rewrite configure_on_idemp.
  f_equal. apply configure_outcome_ext, configure_on_shared.
Qed.

Lemma resolved_options_fixed s cf f tl supplied :
  resolved_options s cf f tl (resolved_options s cf f tl supplied)
  = resolved_options s cf f tl supplied.
Proof.
  apply map_eq. intros k.
  destruct (decide (k = "shared")) as [->|Hs].
  { by rewrite !resolved_shared. }
  destruct (decide (k = "fPIC")) as [->|Hp].
  { rewrite (resolved_fPIC s cf f tl (resolved_options _ _ _ _ _)).
    rewrite resolved_shared, resolved_fPIC.
    change (default false (Some ?b)) with b.
    by destruct (String.eqb (os s) "Windows" || default false (supplied !! "shared")). }
  by rewrite !resolved_other.
Qed.

(** C4.  The narrowing is idempotent.  Running [config_options] and
    [configure] again on the state they left behind changes nothing and
    ends the same way, for every settings vector and every option mapping;
    the two steps raise only when the mapping has no [shared] option to
    read.  [rm_safe] never raises, and removing [fPIC] a second time, when
    it is already absent, leaves the state as it is.  The same holds when
    the client assigns the supplied values between the two steps, and when
    the finalized options of a run are supplied to a new run. *)
Theorem narrowing_idempotent (st : State) (supplied : gmap string bool) :
  narrowing (exec narrowing st) = (exec narrowing st, outcome narrowing st) ∧
  outcome narrowing st =
    match options (self st) !! "shared" with
    | Some _ => Ok ()
    | None => Raise (option_not_exist "shared")
    end ∧
  outcome (rm_safe "fPIC") st = Ok () ∧
  rm_safe "fPIC" (exec (rm_safe "fPIC") st) = (exec (rm_safe "fPIC") st, Ok ()) ∧
  run_configure_method supplied (exec (run_configure_method supplied) st)
    = (exec (run_configure_method supplied) st,
       outcome (run_configure_method supplied) st) ∧
  (∀ s cf f tl,
      resolved_options s cf f tl (resolved_options s cf f tl supplied)
      = resolved_options s cf f tl supplied).
Proof.
  split; [apply narrowing_twice|].
  split.
  { unfold outcome. rewrite narrowing_on_eq. cbv zeta. cbn [snd].
    unfold configure_outcome. by rewrite config_options_on_shared. }
  split.
  { unfold outcome. by rewrite rm_safe_eq. }
  split.
  { unfold exec. rewrite (rm_safe_eq "fPIC" st). cbn [fst].
    rewrite rm_safe_eq, options_with_options, with_options_twice.
    by rewrite (delete_id (delete "fPIC" _)) by apply lookup_delete_eq. }
  split; [apply run_configure_method_twice|].
  intros s cf f tl. apply resolved_options_fixed.
Qed.

(** ** What the resolver depends on *)

Lemma resolved_keys_depend_on_os_and_shared
    s1 s2 cf1 cf2 f1 f2 tl1 tl2 (sup1 sup2 : gmap string bool) :
  os s1 = os s2 →
  input_options sup1 !! "shared" = input_options sup2 !! "shared" →
  dom (resolved_options s1 cf1 f1 tl1 sup1)
  = dom (resolved_options s2 cf2 f2 tl2 sup2).
Proof.
  intros Hos Hsh. rewrite !input_options_shared in Hsh. injection Hsh as Hsh.
  apply set_eq. intros k. rewrite !elem_of_dom.
  destruct (decide (k = "shared")) as [->|Hs].
  { rewrite !resolved_shared. split; eauto. }
  destruct (decide (k = "fPIC")) as [->|Hp].
  { rewrite !resolved_fPIC, Hos, Hsh.
    destruct (String.eqb (os s2) "Windows" || default false (sup2 !! "shared"));
      split; eauto. }
  by rewrite !resolved_other.
Qed.

(** C10, as stated, fails: two runs on the same operating system with the
    same input value of [shared] end with different option sets when
    different values are supplied for [fPIC]. *)
Lemma resolver_not_determined_by_os_and_shared :
  os linux = os linux ∧
  input_options ∅ !! "shared" = input_options {[ "fPIC" := false ]} !! "shared" ∧
  resolved_options linux ∅ fold0 all_ok ∅
    ≠ resolved_options linux ∅ fold0 all_ok {[ "fPIC" := false ]}.
Proof.
  split; [reflexivity|]. split; [reflexivity|].
  intros H. apply (f_equal (λ o : gmap string bool, o !! "fPIC")) in H.
  vm_compute in H. discriminate H.
Qed.

(** C10, amended.  The resolver is deterministic and depends only on
    [settings.os] and on the input values of the two options [shared] and
    [fPIC]: two runs that agree on these end with the same option set and
    both raise nothing, whatever the compiler, build type, architecture,
    configuration flags, folders and external tools are.  The two narrowing
    steps alone, applied to the same option mapping on the same operating
    system, give the same mapping as well. *)
Theorem resolver_depends_on_os_and_options
    (s1 s2 : Settings) (cf1 cf2 : gmap string bool) (f1 f2 : Folders)
    (tl1 tl2 : list Event → Event → bool) (sup1 sup2 : gmap string bool)
    (Hos : os s1 = os s2)
    (Hsh : input_options sup1 !! "shared" = input_options sup2 !! "shared")
    (Hpic : input_options sup1 !! "fPIC" = input_options sup2 !! "fPIC") :
  resolved_options s1 cf1 f1 tl1 sup1 = resolved_options s2 cf2 f2 tl2 sup2 ∧
  outcome (run_configure_method sup1) (start s1 cf1 f1 tl1)
    = outcome (run_configure_method sup2) (start s2 cf2 f2 tl2) ∧
  (∀ o rq1 rq2 ci1 ci2 lg1 lg2,
      options (self (exec narrowing
        (mkState (mkConanFile s1 o cf1 rq1 ci1 f1) lg1 tl1)))
      = options (self (exec narrowing
        (mkState (mkConanFile s2 o cf2 rq2 ci2 f2) lg2 tl2)))).
Proof.
  rewrite !input_options_shared in Hsh. injection Hsh as Hsh.
  rewrite !input_options_fPIC in Hpic. injection Hpic as Hpic.
  split; [|split].
  - apply map_eq. intros k.
    destruct (decide (k = "shared")) as [->|Hs].
    { by rewrite !resolved_shared, Hsh. }
    destruct (decide (k = "fPIC")) as [->|Hp].
    { by rewrite !resolved_fPIC, Hos, Hsh, Hpic. }
    by rewrite !resolved_other.
  - by rewrite !run_configure_method_ok.
  - intros o rq1 rq2 ci1 ci2 lg1 lg2.
    unfold exec. rewrite !narrowing_on_eq. cbv zeta. cbn [fst self settings options].
    rewrite !options_with_options.
    unfold config_options_on. by rewrite Hos.
Qed.

Lemma resolver_depends_on_os_and_options_witness :
  os linux = os linux20 ∧
  resolved_options linux ∅ fold0 all_ok {[ "fPIC" := false ]}
  = resolved_options linux20 {[ "tools.build:skip_test" := true ]} fold0
      (λ _ _, false) {[ "shared" := false; "fPIC" := false ]}.
Proof.
  assert (Hos : os linux = os linux20) by reflexivity.
  assert (Hsh : input_options {[ "fPIC" := false ]} !! "shared"
                = input_options {[ "shared" := false; "fPIC" := false ]} !! "shared")
    by (vm_compute; reflexivity).
  assert (Hpic : input_options {[ "fPIC" := false ]} !! "fPIC"
                 = input_options {[ "shared" := false; "fPIC" := false ]} !! "fPIC")
    by (vm_compute; reflexivity).
  split; [exact Hos|].
  exact (proj1 (resolver_depends_on_os_and_options
    linux linux20 ∅ {[ "tools.build:skip_test" := true ]} fold0 fold0
    all_ok (λ _ _, false) {[ "fPIC" := false ]}
    {[ "shared" := false; "fPIC" := false ]} Hos Hsh Hpic)).
Defined.

(** ** External steps *)

Lemma run_tool_eq ev st :
  run_tool ev st =
    (mkState (self st) (log st ++ [ev]) (tools st),
     if tools st (log st) ev then Ok () else Raise tool_failed).
Proof. unfold run_tool. by destruct (tools st (log st) ev). Qed.

Ltac run_method :=
  unfold mbind, M_bind, bind, get_self, mret, M_ret, ret, copy;
  rewrite ?run_tool_eq; cbn [self log tools fst snd];
  rewrite <- ?(assoc_L (++)); cbn [app].

Ltac case_tools st :=
  repeat match goal with
         | |- context [if tools st ?l ?e then _ else _] =>
             destruct (tools st l e) eqn:?; cbn [fst snd self log tools andb]
         end.

Lemma emitted_app {A} (m : M A) st l :
  log (exec m st) = log st ++ l → emitted m st = l.
Proof. unfold emitted. intros ->. apply drop_app_length. Qed.

Lemma build_eq st :
  tools st (log st) NewCMake = true →
  tools st (log st ++ [NewCMake]) CMakeConfigure = true →
  tools st (log st ++ [NewCMake; CMakeConfigure]) CMakeBuild = true →
  build st =
    if default false (conf (self st) !! "tools.build:skip_test")
    then (mkState (self st)
            (log st ++ [NewCMake; CMakeConfigure; CMakeBuild]) (tools st),
          Ok ())
    else (mkState (self st)
            (log st ++ [NewCMake; CMakeConfigure; CMakeBuild;
                        CMakeCTest ["--output-on-failure"]]) (tools st),
          if tools st (log st ++ [NewCMake; CMakeConfigure; CMakeBuild])
               (CMakeCTest ["--output-on-failure"])
          then Ok () else Raise tool_failed).
Proof.
  intros Hnew Hcfg Hbld. unfold build, conf_get. run_method.
  rewrite Hnew, Hcfg, Hbld.
  destruct (default false (conf (self st) !! "tools.build:skip_test"));
    cbn [negb]; [reflexivity|].
  by run_method.
Qed.

(** With the flag set, no test run is started, whatever the tools do. *)
Lemma build_skip_never_tests st :
  conf (self st) !! "tools.build:skip_test" = Some true →
  count_events is_test_run (emitted build st) = 0.
Proof.
  intros Hskip.
  assert (H : ∃ l, log (exec build st) = log st ++ l ∧
                   count_events is_test_run l = 0).
  { unfold exec, build, conf_get. run_method. rewrite Hskip. cbn [default negb].
    case_tools st; eexists; (split; [reflexivity|reflexivity]). }
  destruct H as (l & Hl & Hc). by rewrite (emitted_app _ _ _ Hl).
Qed.

(** C5.  Once the configure and build steps have succeeded: when the
    skip-tests flag is unset (or false) the build method starts the test
    run exactly once, with [--output-on-failure], after the build step, and
    ends as the test run ends; when the flag is true no test run is
    started and the method returns normally. *)
Theorem build_runs_tests_unless_skipped (st : State)
    (Hnew : tools st (log st) NewCMake = true)
    (Hcfg : tools st (log st ++ [NewCMake]) CMakeConfigure = true)
    (Hbld : tools st (log st ++ [NewCMake; CMakeConfigure]) CMakeBuild = true) :
  match conf (self st) !! "tools.build:skip_test" with
  | None | Some false =>
      emitted build st
        = [NewCMake; CMakeConfigure; CMakeBuild;
           CMakeCTest ["--output-on-failure"]] ∧
      count_events is_test_run (emitted build st) = 1 ∧
      outcome build st
        = (if tools st (log st ++ [NewCMake; CMakeConfigure; CMakeBuild])
                (CMakeCTest ["--output-on-failure"])
           then Ok () else Raise tool_failed)
  | Some true =>
      emitted build st = [NewCMake; CMakeConfigure; CMakeBuild] ∧
      count_events is_test_run (emitted build st) = 0 ∧
      outcome build st = Ok ()
  end.
Proof.
  pose proof (build_eq st Hnew Hcfg Hbld) as Hb.
  destruct (conf (self st) !! "tools.build:skip_test") as [[]|];
    cbn [default from_option id] in Hb;
    unfold outcome; rewrite Hb; cbn [snd];
    (erewrite emitted_app; [|unfold exec; rewrite Hb; reflexivity]);
    done.
Qed.

Lemma build_runs_tests_unless_skipped_witness :
  emitted build (start linux20 ∅ fold0 all_ok)
    = [NewCMake; CMakeConfigure; CMakeBuild; CMakeCTest ["--output-on-failure"]] ∧
  emitted build (start linux20 {[ "tools.build:skip_test" := true ]} fold0 all_ok)
    = [NewCMake; CMakeConfigure; CMakeBuild].
Proof.
  split.
  - exact (proj1 (build_runs_tests_unless_skipped
                    (start linux20 ∅ fold0 all_ok) eq_refl eq_refl eq_refl)).
  - exact (proj1 (build_runs_tests_unless_skipped
                    (start linux20 {[ "tools.build:skip_test" := true ]} fold0 all_ok)
                    eq_refl eq_refl eq_refl)).
Defined.

Lemma generate_emitted st :
  emitted generate st =
    NewCMakeDeps ::
    if tools st (log st) NewCMakeDeps then
      CMakeDepsGenerate ::
      if tools st (log st ++ [NewCMakeDeps]) CMakeDepsGenerate then
        NewCMakeToolchain ::
        if tools st (log st ++ [NewCMakeDeps; CMakeDepsGenerate]) NewCMakeToolchain
        then [CMakeToolchainGenerate] else []
      else []
    else [].
Proof.
  apply emitted_app. unfold exec, generate. run_method.
  by case_tools st.
Qed.

(** C9.  In every run of [generate], wherever the toolchain descriptors
    are generated, the dependency descriptors have been generated at a
    strictly earlier position of the same run, and that step had
    succeeded. *)
Theorem deps_generated_before_toolchain (st : State) (i : nat)
    (Htc : emitted generate st !! i = Some CMakeToolchainGenerate) :
  ∃ j, j < i ∧
       emitted generate st !! j = Some CMakeDepsGenerate ∧
       tools st (log st ++ [NewCMakeDeps]) CMakeDepsGenerate = true.
Proof.
  rewrite generate_emitted in *.
  destruct (tools st (log st) NewCMakeDeps);
    [|by destruct i as [|[|?]]].
  destruct (tools st (log st ++ [NewCMakeDeps]) CMakeDepsGenerate);
    [|by destruct i as [|[|[|?]]]].
  exists 1. split; [|done].
  destruct i as [|[|i]]; [discriminate Htc | discriminate Htc | lia].
Qed.

Lemma deps_generated_before_toolchain_witness :
  emitted generate (start linux20 ∅ fold0 all_ok) !! 3
    = Some CMakeToolchainGenerate ∧
  ∃ j, j < 3 ∧
       emitted generate (start linux20 ∅ fold0 all_ok) !! j
         = Some CMakeDepsGenerate ∧
       all_ok [NewCMakeDeps] CMakeDepsGenerate = true.
Proof.
  split; [reflexivity|].
  exact (deps_generated_before_toolchain
           (start linux20 ∅ fold0 all_ok) 3 eq_refl).
Defined.

(** ** Packaging *)

Lemma package_eq st :
  package st =
    let cp := CopyFiles "cmake/*" (source_folder (folders (self st)))
                (package_folder (folders (self st))) in
    if tools st (log st) NewCMake then
      if tools st (log st ++ [NewCMake]) CMakeInstall then
        (mkState (self st) (log st ++ [NewCMake; CMakeInstall; cp]) (tools st),
         if tools st (log st ++ [NewCMake; CMakeInstall]) cp
         then Ok () else Raise tool_failed)
      else (mkState (self st) (log st ++ [NewCMake; CMakeInstall]) (tools st),
            Raise tool_failed)
    else (mkState (self st) (log st ++ [NewCMake]) (tools st), Raise tool_failed).
Proof.
  unfold package. run_method. cbv zeta.
  destruct (tools st (log st) NewCMake); [|done].
  destruct (tools st (log st ++ [NewCMake]) CMakeInstall); [|done].
  by run_method.
Qed.

(** C8, as stated, fails.  Take a recipe whose generators have run but
    which has been neither configured nor built.  [package] raises no
    configuration error: with tools that succeed it installs, copies and
    returns normally; with an install step that fails on the unbuilt tree
    it raises that tool's failure, a plain [ConanException]. *)
Lemma package_before_build_is_not_rejected :
  built (log (exec generate (start linux20 ∅ fold0 all_ok))) = false ∧
  outcome package (exec generate (start linux20 ∅ fold0 all_ok)) = Ok () ∧
  emitted package (exec generate (start linux20 ∅ fold0 all_ok))
    = [NewCMake; CMakeInstall; CopyFiles "cmake/*" "source" "package"] ∧
  outcome package (exec generate (start linux20 ∅ fold0 needs_build))
    = Raise tool_failed ∧
  ¬ (∃ msg, outcome package (exec generate (start linux20 ∅ fold0 all_ok))
            = Raise (ConanInvalidConfiguration msg)) ∧
  ¬ (∃ msg, outcome package (exec generate (start linux20 ∅ fold0 needs_build))
            = Raise (ConanInvalidConfiguration msg)).
Proof.
  split; [reflexivity|]. split; [reflexivity|]. split; [reflexivity|].
  split; [reflexivity|].
  split; intros [msg H]; discriminate H.
Qed.

(** C8, amended.  [package] does not look at what has been built.  In
    every state it first creates the CMake helper; when that succeeds it
    starts the install step; when that succeeds too it copies [cmake/*]
    from the source folder into the package folder.  It returns normally
    when all three steps succeed; otherwise it raises the failure of the
    step that failed and starts none of the steps after it.  It never
    raises a configuration error, and it leaves the recipe object as it
    was. *)
Theorem package_never_checks_build_state (st : State) :
  emitted package st
    = NewCMake ::
        (if tools st (log st) NewCMake then
           CMakeInstall ::
             (if tools st (log st ++ [NewCMake]) CMakeInstall
              then [CopyFiles "cmake/*" (source_folder (folders (self st)))
                      (package_folder (folders (self st)))]
              else [])
         else []) ∧
  outcome package st
    = (if tools st (log st) NewCMake &&
          tools st (log st ++ [NewCMake]) CMakeInstall &&
          tools st (log st ++ [NewCMake; CMakeInstall])
            (CopyFiles "cmake/*" (source_folder (folders (self st)))
               (package_folder (folders (self st))))
       then Ok () else Raise tool_failed) ∧
  (∀ msg, outcome package st ≠ Raise (ConanInvalidConfiguration msg)) ∧
  self (exec package st) = self st.
Proof.
  unfold outcome, exec.
  split; [|split; [|split]].
  - apply emitted_app. unfold exec. rewrite package_eq. cbv zeta.
    by case_tools st.
  - rewrite package_eq. cbv zeta. by case_tools st.
  - intros msg. rewrite package_eq. cbv zeta. by case_tools st.
  - rewrite package_eq. cbv zeta. by case_tools st.
Qed.

(** ** Validation and the life cycle *)

Lemma export_sources_self st :
  self (exec export_sources st) = self st ∧
  tools (exec export_sources st) = tools st ∧
  ∃ l, log (exec export_sources st) = log st ++ l ∧
       Forall (λ e, is_copy e = true) l.
Proof.
  unfold exec, export_sources. run_method.
  repeat match goal with
         | |- context [if tools st ?l ?e then _ else _] =>
             destruct (tools st l e); cbn [fst snd self log tools]
         end;
    (split; [reflexivity|]; split; [reflexivity|];
     rewrite <- ?(assoc_L (++)); eexists; split; [reflexivity|];
     repeat constructor).
Qed.

Lemma requirements_eq st :
  requirements st =
    (mkState (set_requires
                (requires_ (self st) ++ [mkRequirement "fmt" "9.1.0" true false])
                (self st)) (log st) (tools st), Ok ()).
Proof. reflexivity. Qed.

Lemma build_requirements_eq st :
  build_requirements st =
    (mkState (set_requires
                (requires_ (self st) ++ [mkRequirement "gtest" "1.17.0" false true])
                (self st)) (log st) (tools st), Ok ()).
Proof. reflexivity. Qed.

Lemma layout_eq st : layout st = (st, Ok ()).
Proof. reflexivity. Qed.

Lemma old_cppstd_is_lower v :
  v ∈ cppstd_values → (cppstd_year v < 2020)%N →
  String.ltb (add_millennium (remove_gnu v)) (add_millennium "20") = true.
Proof.
  unfold cppstd_values. intros Hv Hold.
  repeat (apply elem_of_cons in Hv as [->|Hv]);
    try reflexivity; try (vm_compute in Hold; discriminate Hold).
  by apply elem_of_nil in Hv.
Qed.

Lemma new_cppstd_is_not_lower v :
  v ∈ cppstd_values → (2020 ≤ cppstd_year v)%N →
  String.ltb (add_millennium (remove_gnu v)) (add_millennium "20") = false.
Proof.
  unfold cppstd_values. intros Hv Hnew.
  repeat (apply elem_of_cons in Hv as [->|Hv]);
    try reflexivity; try (vm_compute in Hnew; by destruct Hnew).
  by apply elem_of_nil in Hv.
Qed.

Lemma validate_old st v :
  compiler_cppstd (settings (self st)) = Some v →
  v ∈ cppstd_values → (cppstd_year v < 2020)%N →
  validate st = (st, Raise (cppstd_too_low v "20")).
Proof.
  intros Hs Hv Hold. unfold validate, check_min_cppstd. run_method.
  rewrite Hs. cbv zeta. by rewrite (old_cppstd_is_lower v Hv Hold).
Qed.

Lemma validate_new st v :
  compiler_cppstd (settings (self st)) = Some v →
  v ∈ cppstd_values → (2020 ≤ cppstd_year v)%N →
  validate st = (st, Ok ()).
Proof.
  intros Hs Hv Hnew. unfold validate, check_min_cppstd. run_method.
  rewrite Hs. cbv zeta. by rewrite (new_cppstd_is_not_lower v Hv Hnew).
Qed.

Lemma run_configure_method_defaults supplied st :
  options (self st) = default_options →
  run_configure_method supplied st =
    (with_options
       (configure_on (assign_options supplied
          (config_options_on (settings (self st)) default_options))) st,
     Ok ()).
Proof.
  intros Ho. rewrite run_configure_method_on_eq, Ho. cbv zeta. f_equal.
  unfold configure_outcome.
  rewrite assign_options_lookup, config_options_on_shared.
  by rewrite default_options_shared.
Qed.

(** The part of the life cycle that follows the export, up to the
    validation. *)
Lemma create_after_export supplied st1 v :
  options (self st1) = default_options →
  compiler_cppstd (settings (self st1)) = Some v →
  v ∈ cppstd_values → (cppstd_year v < 2020)%N →
  ∃ st', (run_configure_method supplied;; requirements;; build_requirements;;
          layout;; validate;; generate;; build;; package;; package_info) st1
         = (st', Raise (cppstd_too_low v "20")) ∧ log st' = log st1.
Proof.
  intros Ho Hs Hv Hold.
  unfold mbind, M_bind, bind.
  rewrite (run_configure_method_defaults supplied st1 Ho).
  rewrite requirements_eq, build_requirements_eq, layout_eq.
  erewrite validate_old; [| exact Hs | exact Hv | exact Hold].
  eexists. split; reflexivity.
Qed.

(** C7.  When the [compiler.cppstd] of the build environment names a
    standard older than C++20, [validate] raises the validation error
    [ConanInvalidConfiguration] and leaves the state untouched; in the
    life cycle this happens before any generation, build, test or install
    step is started: the log holds the copies of the source export and
    nothing else, and the run ends with that error (or, had the export
    itself failed, with the failure of the export). *)
Theorem validate_rejects_old_cppstd (s : Settings) (cf : gmap string bool)
    (f : Folders) (tl : list Event → Event → bool)
    (supplied : gmap string bool) (v : string)
    (Hs : compiler_cppstd s = Some v)
    (Hv : v ∈ cppstd_values)
    (Hold : (cppstd_year v < 2020)%N) :
  (∀ o rq ci lg,
      validate (mkState (mkConanFile s o cf rq ci f) lg tl)
      = (mkState (mkConanFile s o cf rq ci f) lg tl,
         Raise (cppstd_too_low v "20"))) ∧
  outcome (create supplied) (start s cf f tl)
    = match outcome export_sources (start s cf f tl) with
      | Ok _ => Raise (cppstd_too_low v "20")
      | Raise e => Raise e
      end ∧
  log (exec (create supplied) (start s cf f tl))
    = log (exec export_sources (start s cf f tl)) ∧
  Forall (λ e, is_copy e = true) (log (exec (create supplied) (start s cf f tl))).
Proof.
  split.
  { intros o rq ci lg. by apply validate_old. }
  destruct (export_sources_self (start s cf f tl)) as (Hself & _ & l & Hlog & Hl).
  assert (Hrun : outcome (create supplied) (start s cf f tl)
                 = match outcome export_sources (start s cf f tl) with
                   | Ok _ => Raise (cppstd_too_low v "20")
                   | Raise e => Raise e
                   end ∧
                 log (exec (create supplied) (start s cf f tl))
                 = log (exec export_sources (start s cf f tl))).
  { unfold outcome, exec in *. unfold create.
    rewrite (bind_unfold export_sources).
    destruct (export_sources (start s cf f tl)) as [st1 [[]|e]]; cbn [fst snd] in *.
    - destruct (create_after_export supplied st1 v) as (st' & Hr & Hl');
        [rewrite Hself; reflexivity | rewrite Hself; exact Hs
        | exact Hv | exact Hold |].
      cbn beta. rewrite Hr. cbn [fst snd].
      split; [reflexivity | exact Hl'].
    - split; reflexivity. }
  destruct Hrun as [Hout Hlg].
  split; [exact Hout|]. split; [exact Hlg|].
  rewrite Hlg, Hlog. exact Hl.
Qed.

Lemma validate_rejects_old_cppstd_witness :
  compiler_cppstd linux = Some "gnu17" ∧
  "gnu17" ∈ cppstd_values ∧
  (cppstd_year "gnu17" < 2020)%N ∧
  outcome (create ∅) (start linux ∅ fold0 all_ok)
    = Raise (cppstd_too_low "gnu17" "20").
Proof.
  assert (Hs : compiler_cppstd linux = Some "gnu17") by reflexivity.
  assert (Hv : "gnu17" ∈ cppstd_values).
  { unfold cppstd_values. do 7 apply list_elem_of_further. apply list_elem_of_here. }
  assert (Hold : (cppstd_year "gnu17" < 2020)%N) by reflexivity.
  split; [exact Hs|]. split; [exact Hv|]. split; [exact Hold|].
  exact (proj1 (proj2
    (validate_rejects_old_cppstd linux ∅ fold0 all_ok ∅ "gnu17" Hs Hv Hold))).
Defined.

(** ** Requirements and consumer metadata *)

Lemma package_info_eq st :
  package_info st =
    (mkState (set_cpp_info
                (mkCppInfo ["cmake"]
                   (<["cmake_target_name" := "ka::common"]>
                      (properties (cpp_info (self st))))
                   ["ka_common"]) (self st)) (log st) (tools st), Ok ()).
Proof. reflexivity. Qed.

Lemma validate_self st : exec validate st = st.
Proof.
  unfold exec, validate, check_min_cppstd. run_method.
  destruct (compiler_cppstd (settings (self st))); [|done].
  cbv zeta. by destruct (String.ltb _ _).
Qed.

Lemma generate_self st : self (exec generate st) = self st.
Proof. unfold exec, generate. run_method. by case_tools st. Qed.

Lemma build_self st : self (exec build st) = self st.
Proof.
  unfold exec, build, conf_get. run_method.
  destruct (negb _); run_method; by case_tools st.
Qed.

Lemma package_self st : self (exec package st) = self st.
Proof. unfold exec. rewrite package_eq. cbv zeta. by case_tools st. Qed.

Lemma exec_of {A} (m : M A) st st' r : m st = (st', r) → exec m st = st'.
Proof. unfold exec. by intros ->. Qed.

(** What a completed life cycle leaves in the recipe object. *)
Lemma create_completed s cf f tl supplied stf :
  create supplied (start s cf f tl) = (stf, Ok ()) →
  requires_ (self stf)
    = [mkRequirement "fmt" "9.1.0" true false;
       mkRequirement "gtest" "1.17.0" false true] ∧
  cpp_info (self stf)
    = mkCppInfo ["cmake"] {[ "cmake_target_name" := "ka::common" ]} ["ka_common"].
Proof.
  unfold create. intros H.
  rewrite bind_unfold in H.
  destruct (export_sources (start s cf f tl)) as [st1 [[]|]] eqn:E1;
    [|discriminate H].
  pose proof (proj1 (export_sources_self (start s cf f tl))) as H1.
  rewrite (exec_of _ _ _ _ E1) in H1.
  rewrite bind_unfold in H.
  rewrite (run_configure_method_defaults supplied st1) in H
    by (by rewrite H1).
  rewrite bind_unfold, requirements_eq in H.
  rewrite bind_unfold, build_requirements_eq in H.
  rewrite bind_unfold, layout_eq in H.
  rewrite bind_unfold in H.
  match type of H with
  | context [validate ?st] =>
      pose proof (validate_self st) as H2;
      destruct (validate st) as [st2 [[]|]] eqn:E2; [|discriminate H]
  end.
  unfold exec in H2. rewrite E2 in H2. cbn [fst] in H2. subst st2.
  rewrite bind_unfold in H.
  match type of H with
  | context [generate ?st] =>
      pose proof (generate_self st) as H3;
      destruct (generate st) as [st3 [[]|]] eqn:E3; [|discriminate H]
  end.
  unfold exec in H3. rewrite E3 in H3. cbn [fst] in H3.
  rewrite bind_unfold in H.
  pose proof (build_self st3) as H4.
  destruct (build st3) as [st4 [[]|]] eqn:E4; [|discriminate H].
  unfold exec in H4. rewrite E4 in H4. cbn [fst] in H4.
  rewrite bind_unfold in H.
  pose proof (package_self st4) as H5.
  destruct (package st4) as [st5 [[]|]] eqn:E5; [|discriminate H].
  unfold exec in H5. rewrite E5 in H5. cbn [fst] in H5.
  rewrite package_info_eq in H. injection H as <-.
  cbn [self set_cpp_info requires_ cpp_info].
  rewrite H5, H4, H3. cbn [self set_requires requires_ cpp_info with_options
                           set_options properties].
  rewrite H1. split; reflexivity.
Qed.

(** C6.  A completed life cycle has declared exactly two requirements:
    [fmt] at version [9.1.0] as the one runtime requirement (visible to
    consumers), and [gtest] at version [1.17.0] as the one test-only
    requirement (not visible).  What [package_info] publishes for
    consumers is the build directory [cmake], the target name
    [ka::common] and the library [ka_common]; no string of it mentions
    [gtest].  Each declaring method appends its one entry whatever the
    state it is called in. *)
Theorem requirements_declared (s : Settings) (cf : gmap string bool)
    (f : Folders) (tl : list Event → Event → bool)
    (supplied : gmap string bool) (stf : State)
    (Hrun : create supplied (start s cf f tl) = (stf, Ok ())) :
  requires_ (self stf)
    = [mkRequirement "fmt" "9.1.0" true false;
       mkRequirement "gtest" "1.17.0" false true] ∧
  filter (λ r, req_test r = false) (requires_ (self stf))
    = [mkRequirement "fmt" "9.1.0" true false] ∧
  filter (λ r, req_test r = true) (requires_ (self stf))
    = [mkRequirement "gtest" "1.17.0" false true] ∧
  filter (λ r, req_visible r = true) (requires_ (self stf))
    = [mkRequirement "fmt" "9.1.0" true false] ∧
  cpp_info (self stf)
    = mkCppInfo ["cmake"] {[ "cmake_target_name" := "ka::common" ]} ["ka_common"] ∧
  mentions "gtest" (cpp_info (self stf)) = false ∧
  (∀ st, requires_ (self (exec requirements st))
         = requires_ (self st) ++ [mkRequirement "fmt" "9.1.0" true false]) ∧
  (∀ st, requires_ (self (exec build_requirements st))
         = requires_ (self st) ++ [mkRequirement "gtest" "1.17.0" false true]).
Proof.
  destruct (create_completed s cf f tl supplied stf Hrun) as [Hreq Hinfo].
  rewrite Hreq, Hinfo.
  split; [reflexivity|]. split; [reflexivity|]. split; [reflexivity|].
  split; [reflexivity|]. split; [reflexivity|].
  split; [vm_compute; reflexivity|].
  split; intros st; reflexivity.
Qed.

Lemma requirements_declared_witness :
  create ∅ (start linux20 ∅ fold0 all_ok)
    = (exec (create ∅) (start linux20 ∅ fold0 all_ok), Ok ()) ∧
  requires_ (self (exec (create ∅) (start linux20 ∅ fold0 all_ok)))
    = [mkRequirement "fmt" "9.1.0" true false;
       mkRequirement "gtest" "1.17.0" false true].
Proof.
  assert (Hrun : create ∅ (start linux20 ∅ fold0 all_ok)
                 = (exec (create ∅) (start linux20 ∅ fold0 all_ok), Ok ()))
    by (vm_compute; reflexivity).
  split; [exact Hrun|].
  exact (proj1 (requirements_declared linux20 ∅ fold0 all_ok ∅ _ Hrun)).
Defined.

(** * Further properties of the recipe *)

(** ** Fail-fast sequences *)

Lemma run_tools_eq steps st :
  run_tools steps st =
    (mkState (self st) (log st ++ started (tools st) (log st) steps) (tools st),
     if all_succeed (tools st) (log st) steps then Ok () else Raise tool_failed).
Proof.
  revert st. induction steps as [|e rest IH]; intros st.
  - destruct st. cbn. by rewrite app_nil_r.
  - cbn [run_tools started all_succeed]. rewrite bind_unfold, run_tool_eq.
    destruct (tools st (log st) e); cbn [andb].
    + rewrite IH. cbn [self log tools]. by rewrite <- (assoc_L (++)).
    + reflexivity.
Qed.

Lemma started_prefix tl past steps : started tl past steps `prefix_of` steps.
Proof.
  revert past. induction steps as [|e rest IH]; intros past; [done|].
  cbn [started]. apply prefix_cons.
  destruct (tl past e); [apply IH | apply prefix_nil].
Qed.

Lemma started_all tl past steps :
  all_succeed tl past steps = true → started tl past steps = steps.
Proof.
  revert past. induction steps as [|e rest IH]; intros past; [done|].
  cbn [started all_succeed]. intros [-> H]%andb_prop. by rewrite IH.
Qed.

Lemma started_elem tl past steps e :
  e ∈ started tl past steps → e ∈ steps.
Proof.
  intros H. destruct (started_prefix tl past steps) as [k Hk].
  rewrite Hk. apply elem_of_app. by left.
Qed.

Lemma all_succeed_true tl past steps :
  (∀ l e, tl l e = true) → all_succeed tl past steps = true.
Proof.
  intros H. revert past. induction steps as [|e rest IH]; intros past; [done|].
  cbn [all_succeed]. by rewrite H, IH.
Qed.

Lemma export_sources_steps st :
  export_sources st = run_tools (export_copies (folders (self st))) st.
Proof.
  unfold export_sources, export_copies. cbn [run_tools]. run_method.
  by case_tools st.
Qed.

Lemma generate_steps_eq st : generate st = run_tools generate_steps st.
Proof.
  unfold generate, generate_steps. cbn [run_tools]. run_method.
  by case_tools st.
Qed.

Lemma build_steps_eq st :
  build st = run_tools (build_steps (skip_test (self st))) st.
Proof.
  unfold build, build_steps, skip_test, conf_get.
  destruct (default false (conf (self st) !! "tools.build:skip_test")) eqn:E;
    cbn [app run_tools]; run_method; rewrite E; cbn [negb]; run_method;
    by case_tools st.
Qed.

Lemma package_steps_eq st :
  package st = run_tools (package_steps (folders (self st))) st.
Proof.
  unfold package, package_steps. cbn [run_tools]. run_method.
  by case_tools st.
Qed.

Lemma run_tools_emitted steps st :
  emitted (run_tools steps) st = started (tools st) (log st) steps.
Proof. apply emitted_app. unfold exec. by rewrite run_tools_eq. Qed.

Lemma run_tools_outcome steps st :
  outcome (run_tools steps) st
  = if all_succeed (tools st) (log st) steps then Ok () else Raise tool_failed.
Proof. unfold outcome. by rewrite run_tools_eq. Qed.

Lemma run_tools_self steps st : self (exec (run_tools steps) st) = self st.
Proof. unfold exec. by rewrite run_tools_eq. Qed.

Lemma started_failed tl past steps :
  all_succeed tl past steps = false →
  ∃ l e, started tl past steps = l ++ [e] ∧
         all_succeed tl past l = true ∧ tl (past ++ l) e = false.
Proof.
  revert past. induction steps as [|e0 rest IH]; intros past; [done|].
  cbn [started all_succeed]. destruct (tl past e0) eqn:E; cbn [andb].
  - intros H. destruct (IH _ H) as (l & e & Hl & Hok & Hfail).
    exists (e0 :: l), e. rewrite Hl. split; [done|]. split.
    + cbn [all_succeed]. by rewrite E, Hok.
    + by rewrite <- (assoc_L (++)) in Hfail.
  - intros _. exists [], e0. split; [done|]. split; [done|].
    by rewrite app_nil_r.
Qed.

(** X1.  [export_sources] copies [CMakeLists.txt], [cmake/*],
    [include/*] and [src/*], in this order, from the recipe folder to the
    export folder and stops at the first copy that fails: what it starts
    is a prefix of the four copies; when it returns normally all four were
    made; when it raises, the error is the failure of the last copy
    started, every copy before that one had succeeded, and none after it
    was started.  The recipe object is left as it was. *)
Theorem export_sources_stops_at_first_failure (st : State) :
  emitted export_sources st `prefix_of` export_copies (folders (self st)) ∧
  self (exec export_sources st) = self st ∧
  match outcome export_sources st with
  | Ok _ =>
      emitted export_sources st = export_copies (folders (self st)) ∧
      all_succeed (tools st) (log st) (export_copies (folders (self st))) = true
  | Raise e =>
      e = tool_failed ∧
      ∃ l c, emitted export_sources st = l ++ [c] ∧
             all_succeed (tools st) (log st) l = true ∧
             tools st (log st ++ l) c = false
  end.
Proof.
  unfold emitted, outcome, exec. rewrite export_sources_steps.
  fold (exec (run_tools (export_copies (folders (self st)))) st).
  fold (emitted (run_tools (export_copies (folders (self st)))) st).
  fold (outcome (run_tools (export_copies (folders (self st)))) st).
  rewrite run_tools_emitted, run_tools_outcome, run_tools_self.
  split; [apply started_prefix|]. split; [reflexivity|].
  destruct (all_succeed _ _ _) eqn:E.
  - split; [by apply started_all | reflexivity].
  - split; [reflexivity|]. by apply started_failed.
Qed.

(** X2.  Whatever the tools do, [build] starts a test run only as its
    fourth step, with the single argument [--output-on-failure], and only
    when the skip-tests flag is not set and the CMake helper, the
    configure step and the build step before it have all succeeded. *)
Theorem test_run_only_after_successful_build (st : State) (i : nat)
    (args : list string)
    (Htest : emitted build st !! i = Some (CMakeCTest args)) :
  i = 3 ∧
  args = ["--output-on-failure"] ∧
  skip_test (self st) = false ∧
  emitted build st !! 2 = Some CMakeBuild ∧
  tools st (log st) NewCMake = true ∧
  tools st (log st ++ [NewCMake]) CMakeConfigure = true ∧
  tools st (log st ++ [NewCMake; CMakeConfigure]) CMakeBuild = true.
Proof.
  unfold emitted, exec in *. rewrite build_steps_eq in *.
  fold (exec (run_tools (build_steps (skip_test (self st)))) st) in *.
  fold (emitted (run_tools (build_steps (skip_test (self st)))) st) in *.
  rewrite run_tools_emitted in *.
  unfold build_steps in *.
  destruct (skip_test (self st)); cbn [app started] in *;
    rewrite <- ?(assoc_L (++)) in *; cbn [app] in *;
    destruct (tools st (log st) NewCMake);
    destruct (tools st (log st ++ [NewCMake]) CMakeConfigure);
    destruct (tools st (log st ++ [NewCMake; CMakeConfigure]) CMakeBuild);
    try destruct (tools st (log st ++ [NewCMake; CMakeConfigure; CMakeBuild])
                   (CMakeCTest ["--output-on-failure"]));
    destruct i as [|[|[|[|i]]]]; simpl in Htest; try discriminate Htest;
    try (by destruct i);
    injection Htest as <-; done.
Qed.

Lemma test_run_only_after_successful_build_witness :
  emitted build (start linux20 ∅ fold0 all_ok) !! 3
    = Some (CMakeCTest ["--output-on-failure"]) ∧
  skip_test (self (start linux20 ∅ fold0 all_ok)) = false.
Proof.
  split; [reflexivity|].
  exact (proj1 (proj2 (proj2
    (test_run_only_after_successful_build
       (start linux20 ∅ fold0 all_ok) 3 ["--output-on-failure"] eq_refl)))).
Defined.

(** ** Consumer metadata, validation and narrowing *)

(** X3.  [package_info] assigns rather than appends: whatever build
    directories and libraries [cpp_info] held before are replaced by
    [["cmake"]] and [["ka_common"]], the property [cmake_target_name] is
    set to [ka::common] and the other properties are kept.  Calling it a
    second time changes nothing.  It raises nothing, starts no external
    step and leaves the declared requirements alone. *)
Theorem package_info_overwrites (st : State) :
  outcome package_info st = Ok () ∧
  cpp_info (self (exec package_info st))
    = mkCppInfo ["cmake"]
        (<["cmake_target_name" := "ka::common"]> (properties (cpp_info (self st))))
        ["ka_common"] ∧
  package_info (exec package_info st) = (exec package_info st, Ok ()) ∧
  requires_ (self (exec package_info st)) = requires_ (self st) ∧
  log (exec package_info st) = log st.
Proof.
  unfold outcome, exec. rewrite (package_info_eq st). cbn [fst snd].
  split; [reflexivity|]. split; [reflexivity|].
  split; [|split; reflexivity].
  rewrite package_info_eq.
  cbn [self log tools set_cpp_info cpp_info properties settings options conf
       requires_ folders].
  by rewrite insert_insert_eq.
Qed.

(** X4.  [validate] accepts exactly the standards from C++20 on: for a
    [compiler.cppstd] among the known values it returns normally when the
    value names C++20 or a later standard, with or without the [gnu]
    prefix, and raises the validation error when it names an older one;
    an undefined [compiler.cppstd] is rejected as well.  In every case the
    state is left untouched. *)
Theorem validate_accepts_from_cpp20 (st : State)
    (Hknown : match compiler_cppstd (settings (self st)) with
              | Some v => v ∈ cppstd_values
              | None => True
              end) :
  validate st =
    (st, match compiler_cppstd (settings (self st)) with
         | None => Raise cppstd_undefined
         | Some v => if (2020 <=? cppstd_year v)%N then Ok ()
                     else Raise (cppstd_too_low v "20")
         end).
Proof.
  destruct (compiler_cppstd (settings (self st))) as [v|] eqn:E.
  - destruct (N.leb_spec 2020 (cppstd_year v)).
    + by apply (validate_new st v).
    + by apply (validate_old st v).
  - unfold validate, check_min_cppstd. run_method. by rewrite E.
Qed.

Lemma validate_accepts_from_cpp20_witness :
  validate (start linux20 ∅ fold0 all_ok) = (start linux20 ∅ fold0 all_ok, Ok ()) ∧
  validate (start linux ∅ fold0 all_ok)
    = (start linux ∅ fold0 all_ok, Raise (cppstd_too_low "gnu17" "20")).
Proof.
  assert (H20 : "20" ∈ cppstd_values).
  { unfold cppstd_values. do 8 apply list_elem_of_further. apply list_elem_of_here. }
  assert (H17 : "gnu17" ∈ cppstd_values).
  { unfold cppstd_values. do 7 apply list_elem_of_further. apply list_elem_of_here. }
  split.
  - exact (validate_accepts_from_cpp20 (start linux20 ∅ fold0 all_ok) H20).
  - exact (validate_accepts_from_cpp20 (start linux ∅ fold0 all_ok) H17).
Defined.

Lemma delete_twice (o : gmap string bool) k : delete k (delete k o) = delete k o.
Proof. apply delete_id, lookup_delete_eq. Qed.

Lemma narrow_on_cases s (o : gmap string bool) :
  configure_on (config_options_on s o)
  = if String.eqb (os s) "Windows" || bool_decide (o !! "shared" = Some true)
    then delete "fPIC" o else o.
Proof.
  unfold configure_on. rewrite config_options_on_shared. unfold config_options_on.
  destruct (String.eqb (os s) "Windows"); cbn [orb].
  - destruct (o !! "shared") as [[]|]; [apply delete_twice | done | done].
  - destruct (o !! "shared") as [[]|] eqn:E; [|done|done].
    rewrite bool_decide_eq_true_2; done.
Qed.

Lemma steps_commute_on s (o : gmap string bool) :
  config_options_on s (configure_on o) = configure_on (config_options_on s o).
Proof.
  unfold configure_on at 2. rewrite config_options_on_shared.
  unfold configure_on, config_options_on.
  destruct (String.eqb (os s) "Windows"); by destruct (o !! "shared") as [[]|].
Qed.

(** X5.  All the two narrowing steps ever do is remove [fPIC]: the state
    after [config_options] and [configure] is the state before with
    [fPIC] deleted when the operating system is ["Windows"] or [shared] is
    true, and is the same state otherwise; so the options after are a part
    of the options before, and [shared], every other option, the
    settings, the configuration and the log are as they were.  In a run of
    the client the finalized options are therefore the input values,
    without [fPIC] in the two cases. *)
Theorem narrowing_only_removes_fPIC (st : State) (s : Settings)
    (cf : gmap string bool) (f : Folders) (tl : list Event → Event → bool)
    (supplied : gmap string bool) :
  exec narrowing st
    = with_options
        (if String.eqb (os (settings (self st))) "Windows" ||
            bool_decide (options (self st) !! "shared" = Some true)
         then delete "fPIC" (options (self st)) else options (self st)) st ∧
  options (self (exec narrowing st)) ⊆ options (self st) ∧
  resolved_options s cf f tl supplied
    = (if String.eqb (os s) "Windows" || default false (supplied !! "shared")
       then delete "fPIC" (input_options supplied) else input_options supplied).
Proof.
  assert (H1 : exec narrowing st
    = with_options
        (if String.eqb (os (settings (self st))) "Windows" ||
            bool_decide (options (self st) !! "shared" = Some true)
         then delete "fPIC" (options (self st)) else options (self st)) st).
  { unfold exec. rewrite narrowing_on_eq. cbv zeta. cbn [fst].
    by rewrite narrow_on_cases. }
  split; [exact H1|]. split.
  - rewrite H1, options_with_options.
    destruct (_ || _); [apply delete_subseteq | done].
  - rewrite resolved_options_eq. cbv zeta. unfold input_options.
    destruct (String.eqb (os s) "Windows"); cbn [orb].
    + rewrite assign_options_delete.
      destruct (default false (supplied !! "shared")); [apply delete_twice | done].
    + done.
Qed.

(** X6.  On an option set that has [shared], the two narrowing steps can
    be run in either order: [configure] followed by [config_options] ends
    in the same state, with the same outcome, as [config_options] followed
    by [configure]. *)
Theorem narrowing_steps_commute (st : State)
    (Hsh : is_Some (options (self st) !! "shared")) :
  (configure;; config_options) st = (config_options;; configure) st.
Proof.
  destruct Hsh as [b Hb].
  change (config_options;; configure) with narrowing.
  rewrite narrowing_on_eq. cbv zeta.
  rewrite bind_unfold, configure_on_eq.
  unfold configure_outcome at 1. rewrite Hb.
  rewrite config_options_on_eq.
  change (settings (self (with_options ?o st))) with (settings (self st)).
  rewrite options_with_options, with_options_twice, steps_commute_on.
  f_equal. unfold configure_outcome.
  by rewrite config_options_on_shared, Hb.
Qed.

Lemma narrowing_steps_commute_witness :
  is_Some (options (self (start windows ∅ fold0 all_ok)) !! "shared") ∧
  (configure;; config_options) (start windows ∅ fold0 all_ok)
  = (config_options;; configure) (start windows ∅ fold0 all_ok).
Proof.
  assert (Hsh : is_Some (options (self (start windows ∅ fold0 all_ok)) !! "shared"))
    by (exists false; reflexivity).
  split; [exact Hsh|].
  exact (narrowing_steps_commute (start windows ∅ fold0 all_ok) Hsh).
Defined.

(** ** The life cycle as a whole *)

Lemma validate_pair st : validate st = (st, outcome validate st).
Proof.
  pose proof (validate_self st) as H. unfold exec, outcome in *.
  destruct (validate st) as [st' r]. cbn [fst snd] in *. by subst.
Qed.

Lemma validate_outcome_settings st st' :
  settings (self st) = settings (self st') →
  outcome validate st = outcome validate st'.
Proof.
  intros H. unfold outcome, validate, check_min_cppstd. run_method.
  rewrite H. destruct (compiler_cppstd (settings (self st'))); [|done].
  cbv zeta. by destruct (String.ltb _ _).
Qed.

(** The log and the outcome of a whole run, step by step. *)
Lemma create_run s cf f tl supplied :
  create supplied (start s cf f tl) =
    (exec (create supplied) (start s cf f tl),
     if all_succeed tl [] (export_copies f) then
       match outcome validate (start s cf f tl) with
       | Raise e => Raise e
       | Ok _ =>
           if all_succeed tl (export_copies f) generate_steps &&
              all_succeed tl (export_copies f ++ generate_steps)
                (build_steps (skip_test (new_recipe s cf f))) &&
              all_succeed tl
                (export_copies f ++ generate_steps ++
                 build_steps (skip_test (new_recipe s cf f)))
                (package_steps f)
           then Ok () else Raise tool_failed
       end
     else Raise tool_failed) ∧
  log (exec (create supplied) (start s cf f tl)) =
    let L1 := started tl [] (export_copies f) in
    if all_succeed tl [] (export_copies f) then
      match outcome validate (start s cf f tl) with
      | Raise _ => L1
      | Ok _ =>
          let L2 := L1 ++ started tl L1 generate_steps in
          if all_succeed tl L1 generate_steps then
            let L3 := L2 ++ started tl L2
                              (build_steps (skip_test (new_recipe s cf f))) in
            if all_succeed tl L2 (build_steps (skip_test (new_recipe s cf f)))
            then L3 ++ started tl L3 (package_steps f)
            else L3
          else L2
      end
    else L1.
Proof.
  cbv zeta. unfold exec, create.
  rewrite bind_unfold, export_sources_steps, run_tools_eq.
  change (self (start s cf f tl)) with (new_recipe s cf f).
  change (log (start s cf f tl)) with (@nil Event).
  change (tools (start s cf f tl)) with tl.
  change (folders (new_recipe s cf f)) with f.
  rewrite app_nil_l.
  destruct (all_succeed tl [] (export_copies f)) eqn:E1; [|done].
  rewrite (started_all _ _ _ E1).
  rewrite bind_unfold, run_configure_method_defaults by reflexivity.
  rewrite bind_unfold, requirements_eq.
  rewrite bind_unfold, build_requirements_eq.
  rewrite bind_unfold, layout_eq.
  rewrite bind_unfold, validate_pair.
  match goal with
  | |- context [outcome validate ?st] =>
      rewrite (validate_outcome_settings st (start s cf f tl)) by reflexivity
  end.
  destruct (outcome validate (start s cf f tl)) as [[]|e]; [|done].
  rewrite bind_unfold, generate_steps_eq, run_tools_eq.
  cbn [self log tools with_options].
  destruct (all_succeed tl (export_copies f) generate_steps) eqn:E2;
    cbn [andb]; [|done].
  rewrite (started_all _ _ _ E2).
  rewrite bind_unfold, build_steps_eq, run_tools_eq.
  cbn [self log tools].
  repeat change (skip_test (set_requires ?r ?c)) with (skip_test c).
  change (skip_test (set_options ?o ?c)) with (skip_test c).
  destruct (all_succeed tl (export_copies f ++ generate_steps)
              (build_steps (skip_test (new_recipe s cf f)))) eqn:E3;
    cbn [andb]; [|done].
  rewrite (started_all _ _ _ E3).
  rewrite bind_unfold, package_steps_eq, run_tools_eq.
  cbn [self log tools].
  repeat change (folders (set_requires ?r ?c)) with (folders c).
  change (folders (set_options ?o ?c)) with (folders c).
  change (folders (new_recipe s cf f)) with f.
  rewrite <- !(assoc_L (++)).
  destruct (all_succeed tl _ (package_steps f)) eqn:E4; [|done].
  by rewrite package_info_eq.
Qed.

Lemma no_install_in_copies f : CMakeInstall ∉ export_copies f.
Proof.
  unfold export_copies. intros H.
  repeat (apply elem_of_cons in H as [H|H]; [discriminate H|]).
  by apply elem_of_nil in H.
Qed.

Lemma no_install_in_generate : CMakeInstall ∉ generate_steps.
Proof.
  unfold generate_steps. intros H.
  repeat (apply elem_of_cons in H as [H|H]; [discriminate H|]).
  by apply elem_of_nil in H.
Qed.

Lemma no_install_in_build b : CMakeInstall ∉ build_steps b.
Proof.
  unfold build_steps. intros H. destruct b; cbn [app] in H;
    repeat (apply elem_of_cons in H as [H|H]; [discriminate H|]);
    by apply elem_of_nil in H.
Qed.

(** X7.  When every external step succeeds and [compiler.cppstd] names
    C++20 or later, the life cycle runs to its end and performs, in this
    order and nothing else: the four export copies, the four generator
    steps, the build steps (with the test run unless the skip-tests flag
    is set) and the three packaging steps.  Neither the settings other
    than [cppstd] nor the supplied options change which steps are run. *)
Theorem create_runs_all_steps (s : Settings) (cf : gmap string bool)
    (f : Folders) (tl : list Event → Event → bool)
    (supplied : gmap string bool) (v : string)
    (Hs : compiler_cppstd s = Some v)
    (Hv : v ∈ cppstd_values)
    (Hnew : (2020 ≤ cppstd_year v)%N)
    (Hok : ∀ l e, tl l e = true) :
  outcome (create supplied) (start s cf f tl) = Ok () ∧
  log (exec (create supplied) (start s cf f tl))
    = export_copies f ++ generate_steps ++
      build_steps (skip_test (new_recipe s cf f)) ++ package_steps f.
Proof.
  destruct (create_run s cf f tl supplied) as [Hc Hl].
  assert (Hval : outcome validate (start s cf f tl) = Ok ()).
  { unfold outcome. by rewrite (validate_new (start s cf f tl) v Hs Hv Hnew). }
  split.
  - unfold outcome. rewrite Hc. cbn [snd].
    by rewrite Hval, !(all_succeed_true tl _ _ Hok).
  - rewrite Hl. cbv zeta.
    rewrite Hval, !(all_succeed_true tl _ _ Hok).
    rewrite !(started_all tl _ _ (all_succeed_true tl _ _ Hok)).
    by rewrite <- !(assoc_L (++)).
Qed.

Lemma create_runs_all_steps_witness :
  log (exec (create {[ "shared" := true ]}) (start linux20 ∅ fold0 all_ok))
  = [CopyFiles "CMakeLists.txt" "recipe" "export";
     CopyFiles "cmake/*" "recipe" "export";
     CopyFiles "include/*" "recipe" "export";
     CopyFiles "src/*" "recipe" "export";
     NewCMakeDeps; CMakeDepsGenerate; NewCMakeToolchain; CMakeToolchainGenerate;
     NewCMake; CMakeConfigure; CMakeBuild; CMakeCTest ["--output-on-failure"];
     NewCMake; CMakeInstall; CopyFiles "cmake/*" "source" "package"].
Proof.
  assert (H20 : "20" ∈ cppstd_values).
  { unfold cppstd_values. do 8 apply list_elem_of_further. apply list_elem_of_here. }
  assert (Hnew : (2020 ≤ cppstd_year "20")%N) by (vm_compute; discriminate).
  exact (proj2 (create_runs_all_steps linux20 ∅ fold0 all_ok {[ "shared" := true ]}
                  "20" eq_refl H20 Hnew (λ _ _, eq_refl))).
Defined.

(** X8.  In the life cycle the install step is never started on an
    unbuilt tree: whenever the log of a run contains the install step,
    the build step was started earlier in that run and had succeeded, the
    validation had passed, and no install step precedes that build
    step. *)
Theorem install_only_after_build (s : Settings) (cf : gmap string bool)
    (f : Folders) (tl : list Event → Event → bool)
    (supplied : gmap string bool)
    (Hin : CMakeInstall ∈ log (exec (create supplied) (start s cf f tl))) :
  ∃ pre post,
    log (exec (create supplied) (start s cf f tl)) = pre ++ CMakeBuild :: post ∧
    (CMakeInstall ∉ pre) ∧
    (CMakeInstall ∈ post) ∧
    tl pre CMakeBuild = true ∧
    outcome validate (start s cf f tl) = Ok ().
Proof.
  destruct (create_run s cf f tl supplied) as [_ Hl].
  rewrite Hl in *. clear Hl. cbv zeta in *.
  pose proof (no_install_in_copies f) as Hc.
  pose proof no_install_in_generate as Hg.
  pose proof (no_install_in_build (skip_test (new_recipe s cf f))) as Hb.
  destruct (all_succeed tl [] (export_copies f)) eqn:E1;
    [|by apply started_elem in Hin].
  rewrite (started_all _ _ _ E1) in *.
  destruct (outcome validate (start s cf f tl)) as [[]|e]; [|done].
  destruct (all_succeed tl (export_copies f) generate_steps) eqn:E2.
  2:{ apply elem_of_app in Hin as [Hin|Hin]; [done|].
      by apply started_elem in Hin. }
  rewrite (started_all _ _ _ E2) in *.
  destruct (all_succeed tl (export_copies f ++ generate_steps)
              (build_steps (skip_test (new_recipe s cf f)))) eqn:E3.
  2:{ apply elem_of_app in Hin as [Hin|Hin].
      - apply elem_of_app in Hin as [Hin|Hin]; done.
      - by apply started_elem in Hin. }
  rewrite (started_all _ _ _ E3) in *.
  set (L2 := export_copies f ++ generate_steps) in *.
  set (pk := started tl (L2 ++ build_steps (skip_test (new_recipe s cf f)))
               (package_steps f)) in *.
  set (tests := if skip_test (new_recipe s cf f)
                then [] else [CMakeCTest ["--output-on-failure"]]).
  assert (Hbs : build_steps (skip_test (new_recipe s cf f))
                = [NewCMake; CMakeConfigure] ++ CMakeBuild :: tests) by reflexivity.
  exists (L2 ++ [NewCMake; CMakeConfigure]), (tests ++ pk).
  assert (Hpre : CMakeInstall ∉ L2 ++ [NewCMake; CMakeConfigure]).
  { intros H. apply elem_of_app in H as [H|H].
    - apply elem_of_app in H as [H|H]; done.
    - repeat (apply elem_of_cons in H as [H|H]; [discriminate H|]).
      by apply elem_of_nil in H. }
  assert (Heq : (L2 ++ build_steps (skip_test (new_recipe s cf f))) ++ pk
                = (L2 ++ [NewCMake; CMakeConfigure]) ++ CMakeBuild :: tests ++ pk).
  { rewrite Hbs. by rewrite <- !(assoc_L (++)). }
  split; [exact Heq|]. split; [exact Hpre|]. split; [|split; [|reflexivity]].
  - rewrite Heq in Hin.
    apply elem_of_app in Hin as [Hin|Hin]; [done|].
    apply elem_of_cons in Hin as [Hin|Hin]; [discriminate Hin | exact Hin].
  - rewrite Hbs in E3. cbn [app all_succeed] in E3.
    apply andb_prop in E3 as [_ E3]. apply andb_prop in E3 as [_ E3].
    apply andb_prop in E3 as [E3 _].
    by rewrite <- (assoc_L (++)) in E3.
Qed.

Lemma install_only_after_build_witness :
  CMakeInstall ∈ log (exec (create ∅) (start linux20 ∅ fold0 all_ok)) ∧
  ∃ pre post,
    log (exec (create ∅) (start linux20 ∅ fold0 all_ok)) = pre ++ CMakeBuild :: post ∧
    (CMakeInstall ∉ pre) ∧
    (CMakeInstall ∈ post) ∧
    all_ok pre CMakeBuild = true ∧
    outcome validate (start linux20 ∅ fold0 all_ok) = Ok ().
Proof.
  assert (Hin : CMakeInstall ∈ log (exec (create ∅) (start linux20 ∅ fold0 all_ok))).
  { apply list_elem_of_lookup. exists 13. vm_compute. reflexivity. }
  split; [exact Hin|].
  exact (install_only_after_build linux20 ∅ fold0 all_ok ∅ Hin).
Defined.

(** ** What the later methods leave alone *)

Lemma keeps_inputs_of_self (m : M unit) :
  (∀ st, self (exec m st) = self st) → keeps_inputs m.
Proof. intros H st. by rewrite H. Qed.

Lemma keeps_inputs_bind (m k : M unit) :
  keeps_inputs m → keeps_inputs k → keeps_inputs (m;; k).
Proof.
  intros Hm Hk st. unfold exec. rewrite bind_unfold.
  specialize (Hm st). unfold exec in Hm.
  destruct (m st) as [st1 [[]|e]]; cbn [fst] in *; [|exact Hm].
  destruct (Hk st1) as (H1 & H2 & H3). destruct Hm as (H4 & H5 & H6).
  unfold exec in *. by rewrite H1, H2, H3.
Qed.

Lemma later_methods_keep_inputs : Forall keeps_inputs later_methods.
Proof.
  unfold later_methods. repeat apply Forall_cons_2; try apply Forall_nil_2.
  - intros st. unfold exec. by rewrite requirements_eq.
  - intros st. unfold exec. by rewrite build_requirements_eq.
  - apply keeps_inputs_of_self. intros st. apply export_sources_self.
  - apply keeps_inputs_of_self. intros st. by rewrite validate_self.
  - apply keeps_inputs_of_self. intros st. reflexivity.
  - apply keeps_inputs_of_self, generate_self.
  - apply keeps_inputs_of_self, build_self.
  - apply keeps_inputs_of_self, package_self.
  - intros st. unfold exec. by rewrite package_info_eq.
Qed.

Lemma after_resolution_keeps_inputs :
  keeps_inputs (requirements;; build_requirements;; layout;; validate;;
                generate;; build;; package;; package_info).
Proof.
  pose proof later_methods_keep_inputs as H. unfold later_methods in H.
  repeat match type of H with
         | Forall _ (?m :: _) =>
             let Hm := fresh "Hm" in
             apply Forall_cons in H as [Hm H]
         end.
  repeat (apply keeps_inputs_bind; [assumption|]). assumption.
Qed.

(** X9.  Once the options are resolved nothing changes them any more:
    [requirements], [build_requirements], [export_sources], [validate],
    [layout], [generate], [build], [package] and [package_info] each leave
    the settings, the options and the configuration as they found them,
    whether they return or raise.  So, however far a run of the life cycle
    gets after the export, the options of the recipe at its end are the
    resolved ones (and the declared defaults if the export failed). *)
Theorem options_fixed_after_resolution (s : Settings) (cf : gmap string bool)
    (f : Folders) (tl : list Event → Event → bool)
    (supplied : gmap string bool) :
  Forall keeps_inputs later_methods ∧
  options (self (exec (create supplied) (start s cf f tl)))
    = match outcome export_sources (start s cf f tl) with
      | Ok _ => resolved_options s cf f tl supplied
      | Raise _ => default_options
      end.
Proof.
  split; [apply later_methods_keep_inputs|].
  assert (Hres : resolved_options s cf f tl supplied
                 = configure_on (assign_options supplied
                                   (config_options_on s default_options))).
  { unfold resolved_options, exec.
    by rewrite run_configure_method_defaults by reflexivity. }
  rewrite Hres.
  destruct (export_sources_self (start s cf f tl)) as (Hself & _ & _).
  unfold outcome, exec in *. unfold create. rewrite bind_unfold.
  destruct (export_sources (start s cf f tl)) as [st1 [[]|e]]; cbn [fst snd] in *.
  - rewrite bind_unfold.
    rewrite run_configure_method_defaults by (by rewrite Hself).
    destruct (after_resolution_keeps_inputs
                (with_options
                   (configure_on (assign_options supplied
                      (config_options_on (settings (self st1)) default_options)))
                   st1)) as (_ & Ho & _).
    unfold exec in Ho. rewrite Ho, options_with_options.
    by rewrite Hself.
  - by rewrite Hself.
Qed.

(** ** Failing steps *)

Lemma run_tools_stops (m : M unit) steps st :
  m st = run_tools steps st → stops_at_first_failure m steps st.
Proof.
  intros Hm. unfold stops_at_first_failure, emitted, outcome, exec.
  rewrite Hm.
  fold (exec (run_tools steps) st). fold (emitted (run_tools steps) st).
  fold (outcome (run_tools steps) st).
  rewrite run_tools_emitted, run_tools_outcome, run_tools_self.
  split; [apply started_prefix|]. split; [reflexivity|].
  destruct (all_succeed _ _ _) eqn:E.
  - split; [by apply started_all | reflexivity].
  - split; [reflexivity|]. by apply started_failed.
Qed.

(** X10.  [generate], [build] and [package] each stop at the first
    external step that fails.  [generate] runs the dependency generator
    and then the toolchain generator; [build] runs configure, build and,
    unless the skip-tests flag is set, the test run; [package] runs the
    install step and then the copy of [cmake/*].  Each returns normally
    only when all of its steps succeeded; otherwise it raises the failure
    of the step that failed and starts none of the steps after it: a
    failed test run makes [build] raise, a failed install means that
    nothing is copied.  None of them changes the recipe object. *)
Theorem methods_stop_at_first_failure (st : State) :
  stops_at_first_failure generate generate_steps st ∧
  stops_at_first_failure build (build_steps (skip_test (self st))) st ∧
  stops_at_first_failure package (package_steps (folders (self st))) st.
Proof.
  split; [|split]; apply run_tools_stops.
  - apply generate_steps_eq.
  - apply build_steps_eq.
  - apply package_steps_eq.
Qed.
